(** * Plumber data-engineering assistant: validation, job launch, log
      queries and job-name sanitising

    A shallow embedding of four fragments of the Plumber agent:
    - [validate_input_params] and [submit_dataflow_template]
      (dataflow_agent/tools/dataflow_template_tools.py),
    - [_sanitize_job_name] (dataflow_agent/tools/pipeline_utils.py),
    - [get_latest_resource_based_logs] (monitoring_agent/tools/utils.py),
    - [get_dataproc_logs] (monitoring_agent/tools/dataproc.py).

    The file first gives the definitions, module by module, and then the
    lemmas and theorems about them. *)

From Stdlib Require Import ZArith NArith String Ascii List Bool Lia.
From stdpp Require Import base tactics option list strings pretty.

Set Warnings "-register-all".
Local Open Scope string_scope.
Local Open Scope Z_scope.

(** ** Python values and exceptions *)

Module Py.

(** A value decoded by [json.loads].  A JSON object becomes a [dict]: its
    items are kept in insertion order, and a key is looked up at its first
    occurrence.  Numbers are integers: the functions below never compute
    with a number, they only test its type and its truth value.  A [str]
    is a [string], one [ascii] per character: these functions only
    compare, join and search text. *)
Inductive json : Type :=
| JNull
| JBool (b : bool)
| JInt (n : Z)
| JStr (s : string)
| JList (l : list json)
| JObj (items : list (string * json)).

(** What [type(v).__name__] is. *)
Definition type_name (v : json) : string :=
  match v with
  | JNull => "NoneType"
  | JBool _ => "bool"
  | JInt _ => "int"
  | JStr _ => "str"
  | JList _ => "list"
  | JObj _ => "dict"
  end.

(** The exceptions of the interpreter and of [json.loads].  Each carries
    the text that [str(err)] gives (CPython 3.11 wording). *)
Inductive exn : Type :=
| JSONDecodeError (msg : string)
| AttributeError (msg : string)
| TypeError (msg : string)
| KeyError (msg : string)
| OSError (msg : string).

(** [str(err)] *)
Definition str_exn (e : exn) : string :=
  match e with
  | JSONDecodeError msg | AttributeError msg | TypeError msg
  | KeyError msg | OSError msg => msg
  end.

(** A computation that may raise an exception of type [E]. *)
Definition result (E A : Type) : Type := E + A.

Definition ret {E A} (a : A) : result E A := inr a.
Definition raise {E A} (e : E) : result E A := inl e.
Definition bind {E A B} (m : result E A) (k : A -> result E B) : result E B :=
  match m with
  | inl e => inl e
  | inr a => k a
  end.

#[global] Instance result_ret {E} : MRet (result E) := @ret E.
#[global] Instance result_bind {E} : MBind (result E) := fun A B k m => bind m k.

(** [try: body except Exception as err: handler(err)] *)
Definition try_except {E A} (body : result E A) (handler : E -> A) : A :=
  match body with
  | inl e => handler e
  | inr a => a
  end.

Definition dquote : string := String (ascii_of_nat 34) EmptyString.

(** First item of a dict with the given key. *)
Fixpoint assoc (k : string) (items : list (string * json)) : option json :=
  match items with
  | [] => None
  | (k', v) :: rest => if String.eqb k k' then Some v else assoc k rest
  end.

Definition no_attribute (v : json) (attr : string) : exn :=
  AttributeError ("'" ++ type_name v ++ "' object has no attribute '" ++ attr ++ "'").

(** [d.get(k, default)] *)
Definition dict_get (d : json) (k : string) (dflt : json) : result exn json :=
  match d with
  | JObj items => ret (default dflt (assoc k items))
  | _ => raise (no_attribute d "get")
  end.

(** [d[k]] for a string [k] *)
Definition py_getitem (d : json) (k : string) : result exn json :=
  match d with
  | JObj items =>
      match assoc k items with
      | Some v => ret v
      | None => raise (KeyError ("'" ++ k ++ "'"))
      end
  | JList _ => raise (TypeError "list indices must be integers or slices, not str")
  | JStr _ => raise (TypeError "string indices must be integers, not 'str'")
  | _ => raise (TypeError ("'" ++ type_name d ++ "' object is not subscriptable"))
  end.

(** [d.keys()] *)
Definition dict_keys (d : json) : result exn (list string) :=
  match d with
  | JObj items => ret (map fst items)
  | _ => raise (no_attribute d "keys")
  end.

(** [d.items()] *)
Definition dict_items (d : json) : result exn (list (string * json)) :=
  match d with
  | JObj items => ret items
  | _ => raise (no_attribute d "items")
  end.

(** [bool(v)] *)
Definition truthy (v : json) : bool :=
  match v with
  | JNull => false
  | JBool b => b
  | JInt n => negb (n =? 0)
  | JStr s => negb (String.eqb s EmptyString)
  | JList l => match l with [] => false | _ => true end
  | JObj items => match items with [] => false | _ => true end
  end.

(** The value of a number in arithmetic ([bool] is a subclass of [int]). *)
Definition as_int (v : json) : option Z :=
  match v with
  | JInt n => Some n
  | JBool b => Some (if b then 1 else 0)
  | _ => None
  end.

(** [a + b] *)
Definition py_add (a b : json) : result exn json :=
  match a, b with
  | JList x, JList y => ret (JList (x ++ y))
  | JList _, _ =>
      raise (TypeError ("can only concatenate list (not " ++ dquote ++ type_name b ++ dquote ++ ") to list"))
  | JStr x, JStr y => ret (JStr (x ++ y))
  | JStr _, _ =>
      raise (TypeError ("can only concatenate str (not " ++ dquote ++ type_name b ++ dquote ++ ") to str"))
  | _, _ =>
      match as_int a, as_int b with
      | Some x, Some y => ret (JInt (x + y))
      | _, _ =>
          raise (TypeError ("unsupported operand type(s) for +: '" ++ type_name a
                            ++ "' and '" ++ type_name b ++ "'"))
      end
  end.

(** The one-character strings of a string, as iterating over it gives. *)
Fixpoint chars (s : string) : list string :=
  match s with
  | EmptyString => []
  | String c rest => String c EmptyString :: chars rest
  end.

(** A hashable value, as a member of a [set]. *)
Inductive atom : Type :=
| ANone
| AInt (n : Z)
| AStr (s : string).

(** [hash(v)]: lists and dicts are unhashable; [True == 1] and
    [False == 0] are the same set member. *)
Definition as_atom (v : json) : result exn atom :=
  match v with
  | JNull => ret ANone
  | JBool b => ret (AInt (if b then 1 else 0))
  | JInt n => ret (AInt n)
  | JStr s => ret (AStr s)
  | JList _ | JObj _ => raise (TypeError ("unhashable type: '" ++ type_name v ++ "'"))
  end.

Definition atom_eqb (a b : atom) : bool :=
  match a, b with
  | ANone, ANone => true
  | AInt x, AInt y => x =? y
  | AStr x, AStr y => String.eqb x y
  | _, _ => false
  end.

Definition atom_in (a : atom) (s : list atom) : bool := existsb (atom_eqb a) s.

(** A [set] is kept as the list of its distinct members, in the order in
    which they were first added (Python iterates over a set in hash
    order, which the model does not follow). *)
Fixpoint set_of_atoms (l : list atom) (acc : list atom) : list atom :=
  match l with
  | [] => acc
  | a :: rest => set_of_atoms rest (if atom_in a acc then acc else acc ++ [a])
  end.

Fixpoint atoms_of (l : list json) : result exn (list atom) :=
  match l with
  | [] => ret []
  | v :: rest =>
      match as_atom v with
      | inl e => inl e
      | inr a => match atoms_of rest with inl e => inl e | inr r => inr (a :: r) end
      end
  end.

(** [set(v)] *)
Definition py_set (v : json) : result exn (list atom) :=
  match v with
  | JList l => bind (atoms_of l) (fun a => ret (set_of_atoms a []))
  | JStr s => ret (set_of_atoms (map AStr (chars s)) [])
  | JObj items => ret (set_of_atoms (map (fun kv => AStr (fst kv)) items) [])
  | _ => raise (TypeError ("'" ++ type_name v ++ "' object is not iterable"))
  end.

(** [a - b] on sets *)
Definition set_difference (a b : list atom) : list atom :=
  filter (fun x => negb (atom_in x b)) a.

Fixpoint is_prefix (p s : string) : bool :=
  match p, s with
  | EmptyString, _ => true
  | String a p', String b s' => Ascii.eqb a b && is_prefix p' s'
  | String _ _, EmptyString => false
  end.

(** [needle in hay] for two strings, which is also
    [hay.find(needle) != -1]. *)
Fixpoint contains (needle hay : string) : bool :=
  is_prefix needle hay ||
  match hay with
  | EmptyString => false
  | String _ rest => contains needle rest
  end.

(** [needle in v] for a string [needle]. *)
Definition py_in (needle : string) (v : json) : result exn bool :=
  match v with
  | JStr s => ret (contains needle s)
  | JList l =>
      ret (existsb (fun x => match x with JStr s => String.eqb s needle | _ => false end) l)
  | JObj items => ret (existsb (fun kv => String.eqb (fst kv) needle) items)
  | _ => raise (TypeError ("argument of type '" ++ type_name v ++ "' is not iterable"))
  end.

End Py.

(** ** Parameter validation (dataflow_template_tools.py) *)

Module Validator.
Import Py.

(** The [comment] of a validation: what the message reports.
    - [InvalidParams invalid valid] is
      [f"Invalid param(s) passed: {invalid}. Valid params are: {valid}"],
    - [MissingRequired missing] is [f"Missing required param(s): {missing}"],
    - [ValidationPassed] is ["Validation Passed"],
    - [UnexpectedError msg] is
      [f"An unexpected error occurred during validation - {msg}"].
    The two lists are [list(set - set)]: they hold the members of the
    difference, which Python prints in hash order. *)
Inductive validation_comment : Type :=
| InvalidParams (invalid_params : list atom) (all_defined_params : json)
| MissingRequired (missing_required : list atom)
| ValidationPassed
| UnexpectedError (msg : string).

Record validation : Type := {
  validation_result : string;
  comment : validation_comment
}.

Definition validate_input_params (template_definition user_inputs : json) : validation :=
  try_except
    (required_params ← dict_get template_definition "required" (JList []);
     optional_params ← dict_get template_definition "optional" (JList []);
     all_defined_params ← py_add required_params optional_params;
     user_param_keys ← dict_keys user_inputs;
     let keys := set_of_atoms (map AStr user_param_keys) [] in
     defined ← py_set all_defined_params;
     let invalid_params := set_difference keys defined in
     if bool_decide (invalid_params ≠ []) then
       mret {| validation_result := "failed";
               comment := InvalidParams invalid_params all_defined_params |}
     else
       required ← py_set required_params;
       let missing_required := set_difference required keys in
       if bool_decide (missing_required ≠ []) then
         mret {| validation_result := "failed";
                 comment := MissingRequired missing_required |}
       else
         mret {| validation_result := "success"; comment := ValidationPassed |})
    (fun err => {| validation_result := "failed";
                   comment := UnexpectedError (str_exn err) |}).

Definition failed_with (c : validation_comment) : validation :=
  {| validation_result := "failed"; comment := c |}.

(** A template definition whose [key] holds the list [names] of parameter
    names, or has no such key, in which case [names] is empty. *)
Definition declares (template_definition : list (string * json)) (key : string)
    (names : list string) : Prop :=
  assoc key template_definition = Some (JList (map JStr names))
  \/ (assoc key template_definition = None /\ names = []).

End Validator.

(** ** Job submission (dataflow_template_tools.py) *)

Module Submit.
Import Py Validator.

(** What [subprocess.run(..., capture_output=True, text=True)] gives back. *)
Record completed_process : Type := {
  returncode : Z;
  stdout : string;
  stderr : string
}.

(** The world around the function: the JSON decoder, the text that
    [str()] gives for a list or a dict, the shell that runs a command, and
    the name of a signal as [repr(signal.Signals(n))] prints it ([None]
    for a number that is no signal). *)
Record environment : Type := {
  json_loads : string -> result exn json;
  repr_container : json -> string;
  shell : string -> result exn completed_process;
  signal_repr : Z -> option string
}.

(** What the [try] block of [submit_dataflow_template] can raise. *)
Inductive error : Type :=
| Builtin (e : exn)
| CalledProcessError (cmd : string) (code : Z) (out err : string).

Definition lift {A} (m : result exn A) : result error A :=
  match m with
  | inl e => inl (Builtin e)
  | inr a => inr a
  end.

(** [str(err)]; for [CalledProcessError] this is its [__str__]. *)
Definition str_error (env : environment) (e : error) : string :=
  match e with
  | Builtin e => str_exn e
  | CalledProcessError cmd code _ _ =>
      if code <? 0 then
        match signal_repr env (- code) with
        | Some sig => "Command '" ++ cmd ++ "' died with " ++ sig ++ "."
        | None => "Command '" ++ cmd ++ "' died with unknown signal "
                  ++ pretty (- code) ++ "."
        end
      else "Command '" ++ cmd ++ "' returned non-zero exit status "
           ++ pretty code ++ "."
  end.

(** [subprocess.run(cmd, capture_output=True, text=True, check=True, shell=True)] *)
Definition subprocess_run (env : environment) (cmd : string) : result error completed_process :=
  p ← lift (shell env cmd);
  if returncode p =? 0 then mret p
  else raise (CalledProcessError cmd (returncode p) (stdout p) (stderr p)).

(** [str(v)], as an f-string formats [v]. *)
Definition py_str (env : environment) (v : json) : string :=
  match v with
  | JNull => "None"
  | JBool true => "True"
  | JBool false => "False"
  | JInt n => pretty n
  | JStr s => s
  | JList _ | JObj _ => repr_container env v
  end.

(** [v == s] for a string [s] *)
Definition eq_str (v : json) (s : string) : bool :=
  match v with
  | JStr t => String.eqb t s
  | _ => false
  end.

(** The [comment] of a submission:
    - [NoTemplatePath] is ['Job could not be submitted because the
      "template_gcs_path" key was not found.'],
    - [NoParamsKey] is ['Job could not be submitted because the template
      definition is missing the "params" key.'],
    - [ValidationError c] is [f'Job could not be submitted due to a
      parameter validation error: {c}'],
    - [JobSubmitted] is ['Job Submitted Successfully'],
    - [Unexpected msg] is [f'An unexpected error occurred: {msg}']. *)
Inductive submit_comment : Type :=
| NoTemplatePath
| NoParamsKey
| ValidationError (c : validation_comment)
| JobSubmitted
| Unexpected (msg : string).

(** The returned dict; [job_stdout] is its ['stdout'] key, present on
    success only. *)
Record submission : Type := {
  status : string;
  job_stdout : option string;
  submit_note : submit_comment
}.

Definition failed (c : submit_comment) : submission :=
  {| status := "failed"; job_stdout := None; submit_note := c |}.

Definition delemeter : string := "###".
Definition default_labels : string := "source=plumber".

Definition flex_cmd (job_name gcp_project region template_gcs_path parameters_str : string) : string :=
  "gcloud dataflow flex-template run " ++ job_name ++ " --project=" ++ gcp_project
  ++ " --region=" ++ region ++ " --template-file-gcs-location=" ++ template_gcs_path
  ++ " --parameters " ++ dquote ++ parameters_str ++ dquote
  ++ " --additional-user-labels=" ++ default_labels.

Definition classic_cmd (job_name gcp_project region template_gcs_path parameters_str
                        gcs_staging_location : string) : string :=
  "gcloud dataflow jobs run " ++ job_name ++ " --project=" ++ gcp_project
  ++ " --region=" ++ region ++ " --gcs-location=" ++ template_gcs_path
  ++ " --parameters " ++ dquote ++ parameters_str ++ dquote
  ++ " --staging-location=" ++ gcs_staging_location
  ++ " --additional-user-labels=" ++ default_labels.

(** Lines 300 to 311: the parameter string, the Flex decision and the
    command. *)
Definition run_cmd (env : environment)
    (job_name gcp_project region gcs_staging_location : string)
    (user_input_dict template_definition_dict template_gcs_path : json) : result exn string :=
  items ← dict_items user_input_dict;
  let parameters_str :=
    String.concat delemeter
      (map (fun kv => fst kv ++ "=" ++ py_str env (snd kv)) items) in
  let parameters_str := "^" ++ delemeter ++ "^" ++ parameters_str in
  in_path ← py_in "/flex/" template_gcs_path;
  is_flex ← (if in_path : bool then mret true
             else type ← dict_get template_definition_dict "type" JNull;
                  mret (eq_str type "FLEX"));
  if is_flex : bool then
    mret (flex_cmd job_name gcp_project region (py_str env template_gcs_path) parameters_str)
  else
    mret (classic_cmd job_name gcp_project region (py_str env template_gcs_path)
            parameters_str gcs_staging_location).

(** Lines 283 to 298: [Some r] when the function returns [r] early. *)
Definition check_params (custom_gcs_path : string)
    (user_input_dict template_definition_dict : json) : result exn (option submission) :=
  if negb (truthy (JStr custom_gcs_path)) then
    has_params ← py_in "params" template_definition_dict;
    if negb has_params then mret (Some (failed NoParamsKey))
    else
      params ← py_getitem template_definition_dict "params";
      let param_validation_result := validate_input_params params user_input_dict in
      if negb (String.eqb (validation_result param_validation_result) "success") then
        mret (Some (failed (ValidationError (comment param_validation_result))))
      else mret None
  else mret None.

Definition submit_dataflow_template (env : environment)
    (job_name input_params template_params gcp_project region gcs_staging_location
     custom_gcs_path : string) : submission :=
  try_except
    (user_input_dict ← lift (json_loads env input_params);
     template_definition_dict ← lift (json_loads env template_params);
     let template_definition_dict :=
       match template_definition_dict with
       | JList (first :: _) => first
       | _ => template_definition_dict
       end in
     template_gcs_path ←
       (if truthy (JStr custom_gcs_path) then mret (JStr custom_gcs_path)
        else lift (dict_get template_definition_dict "template_gcs_path" JNull));
     if negb (truthy template_gcs_path) then mret (failed NoTemplatePath)
     else
       early ← lift (check_params custom_gcs_path user_input_dict template_definition_dict);
       match early with
       | Some r => mret r
       | None =>
           cmd ← lift (run_cmd env job_name gcp_project region gcs_staging_location
                         user_input_dict template_definition_dict template_gcs_path);
           cmd_run_status ← subprocess_run env cmd;
           mret {| status := "success";
                   job_stdout := Some (stdout cmd_run_status);
                   submit_note := JobSubmitted |}
       end)
    (fun err => failed (Unexpected (str_error env err))).

(** A value that line 269 unwraps: a non-empty list. *)
Definition wrapped (d : json) : Prop :=
  match d with
  | JList (_ :: _) => True
  | _ => False
  end.

(** The Flex decision of line 305 for a path that is a string and a
    descriptor that is a dict. *)
Definition is_flex (template_gcs_path : string) (descriptor : list (string * json)) : bool :=
  contains "/flex/" template_gcs_path
  || eq_str (default JNull (assoc "type" descriptor)) "FLEX".

(** [f"{delemeter}".join(...)] behind the prefix [^###^] *)
Definition parameters_str (env : environment) (items : list (string * json)) : string :=
  "^" ++ delemeter ++ "^"
  ++ String.concat delemeter (map (fun kv => fst kv ++ "=" ++ py_str env (snd kv)) items).

(** A small world for running the function: a decoder that knows a few
    JSON texts, and a shell in which every command exits with status 1. *)
Definition sample_json_loads (s : string) : result exn json :=
  if String.eqb s "{}" then ret (JObj [])
  else if String.eqb s "[{}]" then ret (JList [JObj []])
  else if String.eqb s "[{}, 7]" then ret (JList [JObj []; JInt 7])
  else raise (JSONDecodeError "Expecting value: line 1 column 1 (char 0)").

Definition failing_shell (out err : string) : environment :=
  {| json_loads := sample_json_loads;
     repr_container := fun _ => "{}";
     shell := fun _ => ret {| returncode := 1; stdout := out; stderr := err |};
     signal_repr := fun _ => None |}.

End Submit.

(** ** Log queries (monitoring_agent/tools) *)

Module Logs.
Import Py.

(** The iterator that [client.list_entries] returns: the entries it
    yields, each represented by the text [str(entry)] (all the code reads
    of it), and the exception that fetching a further page raises once
    they are consumed, if any. *)
Record log_iterator : Type := {
  entries : list string;
  failure : option exn
}.

(** The keyword arguments of [list_entries]. *)
Record call_args : Type := {
  resource_names : list string;
  order_by : option string;
  page_size : option Z;
  max_results : Z;
  filter_ : string
}.

(** The world around the log tools: the clock ([datetime.now()], in
    microseconds), [datetime.isoformat], [str.upper], [str.strip], the
    construction of a logging client for a project and its
    [list_entries]. *)
Record environment : Type := {
  now : Z;
  isoformat : Z -> string;
  upper : string -> string;
  strip : string -> string;
  new_client : string -> option exn;
  list_entries : call_args -> result exn log_iterator
}.

(** [timedelta(days=90)], in microseconds *)
Definition lookback : Z := 90 * 86400 * 1000000.

(** [f'timestamp >= "{(datetime.now() - timedelta(days=90)).isoformat()}Z"'] *)
Definition timestamp_clause (env : environment) : string :=
  "timestamp >= " ++ dquote ++ isoformat env (now env - lookback) ++ "Z" ++ dquote.

(** Modelled from the spec: [SEVERITIES_LIST] of monitoring_agent/prompt.py,
    which is not among the sources; the spec gives the fixed ordered list
    of valid severities INFO, DEFAULT, WARNING, NOTICE, DEBUG, ERROR. *)
Definition SEVERITIES_LIST : list string :=
  ["INFO"; "DEFAULT"; "WARNING"; "NOTICE"; "DEBUG"; "ERROR"].

Definition newline : string := String (ascii_of_nat 10) EmptyString.

(** The loop shared by utils.py and dataproc.py:
    [for entry in iterator: log_count += 1; collected_logs.append(...);
     if log_count >= 10: break]. *)
Fixpoint pull (it : list string) (fail : option exn) (log_count : Z)
    (collected_logs : list string) : result exn (Z * list string) :=
  match it with
  | [] =>
      match fail with
      | Some e => raise e
      | None => mret (log_count, collected_logs)
      end
  | entry :: rest =>
      let log_count := log_count + 1 in
      let collected_logs :=
        (collected_logs ++ [("Entry " ++ pretty log_count ++ ": " ++ entry)%string])%list in
      if 10 <=? log_count then mret (log_count, collected_logs)
      else pull rest fail log_count collected_logs
  end.

(** The loop of dataflow.py, which has no [break]. *)
Fixpoint pull_all (it : list string) (fail : option exn) (log_count : Z)
    (collected_logs : list string) : result exn (Z * list string) :=
  match it with
  | [] =>
      match fail with
      | Some e => raise e
      | None => mret (log_count, collected_logs)
      end
  | entry :: rest =>
      let log_count := log_count + 1 in
      pull_all rest fail log_count
        (collected_logs ++ [("Entry " ++ pretty log_count ++ ": " ++ entry)%string])%list
  end.

(** Lines 191 to 196 of utils.py: the filter text. *)
Fixpoint severity_loop (env : environment) (severities : list string)
    (severity : option string) (full_filter : string) : string :=
  match severities with
  | [] => full_filter
  | severity_exist :: rest =>
      match severity with
      | Some sev =>
          if contains severity_exist (upper env sev)
          then full_filter ++ " AND " ++ sev
          else severity_loop env rest severity full_filter
      | None => severity_loop env rest severity full_filter
      end
  end.

(** Lines 181 to 198 of utils.py: the arguments handed to
    [list_entries]. *)
Definition resource_based_call_args (env : environment) (project_id : string)
    (severity : option string) (resource : string) (_limit : Z) : call_args :=
  let project_path := "projects/" ++ project_id in
  let call_args :=
    {| resource_names := [project_path];
       order_by := Some "timestamp desc";
       page_size := Some 5;
       max_results := _limit;
       filter_ := timestamp_clause env |} in
  let full_filter := resource in
  let full_filter := severity_loop env SEVERITIES_LIST severity full_filter in
  {| resource_names := resource_names call_args;
     order_by := order_by call_args;
     page_size := page_size call_args;
     max_results := max_results call_args;
     filter_ := full_filter |}.

(** The returned dict: [Report text] is
    [{"status": "success", "report": text}] and [Error text] is
    [{"status": "error", "message": text}]. *)
Inductive outcome : Type :=
| Report (report : string)
| Error (message : string).

(** Lines 200 to 211 of utils.py: the entries collected inside [try]. *)
Definition resource_based_entries (env : environment) (project_id : string)
    (severity : option string) (resource : string) (_limit : Z)
    : result exn (Z * list string) :=
  iterator ← list_entries env
               (resource_based_call_args env project_id severity resource _limit);
  pull (entries iterator) (failure iterator) 0 [].

(** The client is built before [try]: an exception there leaves the
    function. *)
Definition get_latest_resource_based_logs (env : environment) (project_id : string)
    (severity : option string) (resource : string) (_limit : Z) : result exn outcome :=
  match new_client env project_id with
  | Some e => raise e
  | None =>
      mret (try_except
        (r ← resource_based_entries env project_id severity resource _limit;
         let '(log_count, collected_logs) := r in
         if log_count =? 0 then
           mret (Report "No log entries found matching the criteria.")
         else
           mret (Report ("Fetched recent log entries:" ++ newline
                         ++ String.concat newline collected_logs)))
        (fun e => Error ("Failed to get latest resource based 10 logs: " ++ str_exn e)))
  end.

(** dataproc.py, lines 133 to 137 *)
Definition dataproc_filter (env : environment) (resource_name query_str label : string) : string :=
  "resource.type=" ++ dquote ++ resource_name ++ dquote ++ " AND "
  ++ "resource.labels." ++ label ++ "=" ++ dquote ++ strip env query_str ++ dquote ++ " AND "
  ++ timestamp_clause env.

Definition dataproc_call_args (env : environment) (project_id resource_name query_str
    label : string) (_limit : Z) : call_args :=
  {| resource_names := ["projects/" ++ project_id];
     order_by := Some "timestamp desc";
     page_size := None;
     max_results := _limit;
     filter_ := dataproc_filter env resource_name query_str label |}.

(** [get_dataproc_logs]; the parameter [filter] of the source is [label]
    here. *)
Definition get_dataproc_logs (env : environment) (project_id resource_name query_str
    label : string) (_limit : Z) : list string :=
  try_except
    (match new_client env project_id with
     | Some e => raise e
     | None =>
         iterator ← list_entries env
                      (dataproc_call_args env project_id resource_name query_str label _limit);
         r ← pull (entries iterator) (failure iterator) 0 [];
         mret (snd r)
     end)
    (fun _ => []).

(** dataflow.py: the filter of [get_dataflow_job_logs_with_id]. *)
Definition dataflow_filter (env : environment) (job_id : string) : string :=
  "resource.type=" ++ dquote ++ "dataflow_step" ++ dquote ++ " AND "
  ++ "resource.labels.job_id=" ++ dquote ++ job_id ++ dquote ++ " AND "
  ++ timestamp_clause env.

(** Whether the upper-cased text mentions one of the valid severities. *)
Definition mentions_severity (env : environment) (sev : string) : bool :=
  existsb (fun severity_exist => contains severity_exist (upper env sev)) SEVERITIES_LIST.

(** The severity rule as the spec words it: the first valid severity that
    the upper-cased text contains is the matched one, and the clause
    appended is [AND severity=<matched>]. *)
Definition matched_severity (env : environment) (severity : option string) : option string :=
  match severity with
  | Some sev => List.find (fun tok => contains tok (upper env sev)) SEVERITIES_LIST
  | None => None
  end.

Definition spec_filter (env : environment) (severity : option string) (resource : string) : string :=
  match matched_severity env severity with
  | Some matched => resource ++ " AND severity=" ++ matched
  | None => resource
  end.

(** The contract of the client library for [max_results]: the iterator
    yields at most that many entries, a non-positive value counting as
    zero. *)
Definition honours_max_results (env : environment) : Prop :=
  forall args it,
    list_entries env args = inr it ->
    (length (entries it) <= Z.to_nat (max_results args))%nat.

(** A small world for running the tools: ASCII upper-casing, a fixed
    clock, and a log store of twelve entries served up to
    [max_results]. *)
Fixpoint ascii_upper (s : string) : string :=
  match s with
  | EmptyString => EmptyString
  | String c rest =>
      let n := nat_of_ascii c in
      String (if (97 <=? n)%nat && (n <=? 122)%nat then ascii_of_nat (n - 32) else c)
             (ascii_upper rest)
  end.

Definition stored_entries : list string :=
  ["e1"; "e2"; "e3"; "e4"; "e5"; "e6"; "e7"; "e8"; "e9"; "e10"; "e11"; "e12"].

Definition sample_env : environment :=
  {| now := 0;
     isoformat := fun _ => "2026-08-06T09:30:00.000000";
     upper := ascii_upper;
     strip := fun s => s;
     new_client := fun _ => None;
     list_entries := fun args =>
       ret {| entries := take (Z.to_nat (max_results args)) stored_entries;
              failure := None |} |}.

End Logs.

(** ** Job names (pipeline_utils.py) *)

Module Sanitizer.

Local Close Scope string_scope.
Local Open Scope N_scope.

(** A Python [str] is a sequence of Unicode code points. *)
Definition of_string (s : string) : list N := map N_of_ascii (list_ascii_of_string s).

(** The Unicode tables behind [str.lower], [str.isalpha] and
    [str.isalnum] (the last two on one character). *)
Record unicode : Type := {
  lower : list N -> list N;
  isalpha : N -> bool;
  isalnum : N -> bool
}.

Definition hyphen : N := 45.
Definition is_hyphen (c : N) : bool := c =? hyphen.
Definition is_letter (c : N) : bool := (97 <=? c) && (c <=? 122).
Definition is_digit (c : N) : bool := (48 <=? c) && (c <=? 57).

(** The character class [[a-z0-9-]] *)
Definition in_class (c : N) : bool := is_letter c || is_digit c || is_hyphen c.

(** [re.sub(r'[^a-z0-9-]', '-', s)] *)
Definition replace_outside (s : list N) : list N :=
  map (fun c => if in_class c then c else hyphen) s.

(** [re.sub(r'-+', '-', s)]: of every run of hyphens the last one stays. *)
Fixpoint collapse (s : list N) : list N :=
  match s with
  | [] => []
  | c :: rest =>
      match rest with
      | d :: _ => if is_hyphen c && is_hyphen d then collapse rest else c :: collapse rest
      | [] => [c]
      end
  end.

(** [s.lstrip('-')] *)
Fixpoint lstrip (s : list N) : list N :=
  match s with
  | [] => []
  | c :: rest => if is_hyphen c then lstrip rest else s
  end.

(** [s.strip('-')] *)
Definition strip (s : list N) : list N := rev (lstrip (rev (lstrip s))).

Definition job_prefix : list N := of_string "job-"%string.

(** [_sanitize_job_name]; [uuid_hex] is [uuid.uuid4().hex], the random
    value the call draws. *)
Definition _sanitize_job_name (u : unicode) (uuid_hex : list N) (name : list N) : list N :=
  let sanitized := lower u name in
  let sanitized := replace_outside sanitized in
  let sanitized := collapse sanitized in
  let sanitized := strip sanitized in
  match sanitized with
  | [] => job_prefix ++ take 8 uuid_hex
  | first :: _ =>
      let sanitized := if negb (isalpha u first) then job_prefix ++ sanitized else sanitized in
      let sanitized :=
        if negb (isalnum u (List.last sanitized 0)) then removelast sanitized else sanitized in
      take 63 sanitized
  end.

(** What the tables give on the characters that reach them: lower-case
    letters, digits and hyphens are left alone by [lower]; among them the
    letters are alphabetic and the letters and digits alphanumeric. *)
Record unicode_ok (u : unicode) : Prop := {
  lower_in_class : forall s, Forall (fun c => in_class c = true) s -> lower u s = s;
  isalpha_in_class : forall c, in_class c = true -> isalpha u c = is_letter c;
  isalnum_in_class : forall c, in_class c = true -> isalnum u c = is_letter c || is_digit c
}.

(** [uuid4().hex] is 32 lower-case hexadecimal digits. *)
Definition is_hex (c : N) : bool := is_digit c || ((97 <=? c) && (c <=? 102)).
Definition uuid_ok (uuid_hex : list N) : Prop :=
  length uuid_hex = 32%nat /\ Forall (fun c => is_hex c = true) uuid_hex.

(** The tables restricted to ASCII, for running the function. *)
Definition ascii_tables : unicode :=
  {| lower := map (fun c => if (65 <=? c) && (c <=? 90) then c + 32 else c);
     isalpha := fun c => ((65 <=? c) && (c <=? 90)) || is_letter c;
     isalnum := fun c => ((65 <=? c) && (c <=? 90)) || is_letter c || is_digit c |}.

Definition sample_uuid : list N := of_string "0123456789abcdef0123456789abcdef"%string.

(** The cleaned text: lower-cased, substituted, collapsed and stripped. *)
Definition cleaned (u : unicode) (name : list N) : list N :=
  strip (collapse (replace_outside (lower u name))).

(** No two hyphens in a row. *)
Fixpoint no_double (s : list N) : bool :=
  match s with
  | [] => true
  | c :: rest =>
      match rest with
      | [] => true
      | d :: _ => negb (is_hyphen c && is_hyphen d) && no_double rest
      end
  end.

(** The grammar of the spec, [^[a-z][a-z0-9-]*[a-z0-9]$], as a matcher. *)
Definition matches_job_name_grammar (s : list N) : bool :=
  match s with
  | [] => false
  | c :: rest =>
      is_letter c &&
      match rest with
      | [] => false
      | _ => forallb in_class (removelast rest)
             && (let z := List.last rest 0 in is_letter z || is_digit z)
      end
  end.

End Sanitizer.

(** ** The Dataproc sibling of the validator (dataproc_template_agent/utils.py) *)

Module DataprocValidator.
Import Py.

(** The returned dict; here both entries are plain texts. *)
Record validation : Type := {
  validation_result : string;
  comment : string
}.

(** [a.issubset(b)] on sets *)
Definition issubset (a b : list atom) : bool := forallb (fun x => atom_in x b) a.

(** [validate_input_params] of dataproc_template_agent/utils.py, lines 113
    to 147. *)
Definition validate_input_params (template_params input_params : json) : validation :=
  try_except
    (required_template_params ← dict_get template_params "required" (JList []);
     optional_template_params ← dict_get template_params "optional" (JList []);
     all_params ← py_add required_template_params optional_template_params;
     input_params_name ← dict_keys input_params;
     let names := set_of_atoms (map AStr input_params_name) [] in
     defined ← py_set all_params;
     let invalid_input_params := set_difference names defined in
     if bool_decide (invalid_input_params ≠ []) then
       mret {| validation_result := "failed"; comment := "Invalid param passed" |}
     else
       required ← py_set required_template_params;
       let all_required_params := issubset required names in
       if negb all_required_params then
         mret {| validation_result := "failed"; comment := "Missing required params" |}
       else
         mret {| validation_result := "success"; comment := "Validation Passed" |})
    (fun err => {| validation_result := "failed";
                   comment := "Error while running validation - " ++ str_exn err |}).

End DataprocValidator.

(** ** Sample worlds for job submission *)

Module SubmitSamples.
Import Py Submit.

Definition quoted (s : string) : string := dquote ++ s ++ dquote.

(** The JSON text [{"inputFile": "gs://b/in.txt"}] and its value. *)
Definition inputs_text : string :=
  "{" ++ quoted "inputFile" ++ ": " ++ quoted "gs://b/in.txt" ++ "}".
Definition inputs_value : json := JObj [("inputFile", JStr "gs://b/in.txt")].

(** A template definition with a path and parameter lists, one without
    the parameter lists, and one without the path. *)
Definition template_text : string :=
  "{" ++ quoted "template_gcs_path" ++ ": " ++ quoted "gs://b/templates/Word_Count" ++ ", "
  ++ quoted "params" ++ ": {" ++ quoted "required" ++ ": [" ++ quoted "inputFile" ++ "]}}".
Definition template_value : json :=
  JObj [("template_gcs_path", JStr "gs://b/templates/Word_Count");
        ("params", JObj [("required", JList [JStr "inputFile"])])].

Definition no_params_text : string :=
  "{" ++ quoted "template_gcs_path" ++ ": " ++ quoted "gs://b/templates/Word_Count" ++ "}".
Definition no_params_value : json :=
  JObj [("template_gcs_path", JStr "gs://b/templates/Word_Count")].

Definition no_path_text : string := "{" ++ quoted "params" ++ ": {}}".
Definition no_path_value : json := JObj [("params", JObj [])].

Definition decoder (s : string) : result exn json :=
  if String.eqb s inputs_text then ret inputs_value
  else if String.eqb s template_text then ret template_value
  else if String.eqb s no_params_text then ret no_params_value
  else if String.eqb s no_path_text then ret no_path_value
  else if String.eqb s "{}" then ret (JObj [])
  else raise (JSONDecodeError "Expecting value: line 1 column 1 (char 0)").

(** A world whose shell answers every command with the given status and
    output. *)
Definition world (code : Z) (out err : string) : environment :=
  {| json_loads := decoder;
     repr_container := fun _ => "{}";
     shell := fun _ => ret {| returncode := code; stdout := out; stderr := err |};
     signal_repr := fun _ => None |}.

End SubmitSamples.

(** ** The log tools built on the queries (monitoring_agent/tools) *)

Module LogTools.
Import Py Logs.

(** The lines [f"Entry {log_count}: {str(entry)}"] for a run of entries,
    the count standing at [n] before the first of them. *)
Fixpoint numbered_from (n : Z) (l : list string) : list string :=
  match l with
  | [] => []
  | entry :: rest =>
      ("Entry " ++ pretty (n + 1) ++ ": " ++ entry) :: numbered_from (n + 1) rest
  end.

Definition no_entries : string := "No log entries found matching the criteria.".

(** dataproc.py, lines 40 to 53; [get_dataproc_cluster_logs_with_id]
    (lines 88 to 101) is the same with the label [cluster_uuid]. *)
Definition cluster_logs (env : environment) (project_id query_str label : string)
    (_limit : Z) : outcome :=
  try_except
    (let collected_logs :=
       get_dataproc_logs env project_id "cloud_dataproc_cluster" query_str label _limit in
     let log_count := length collected_logs in
     if (log_count =? 0)%nat then mret (Report no_entries)
     else mret (Report ("Fetched log entries:" ++ newline
                        ++ String.concat newline collected_logs)))
    (fun e => Report ("An error occurred: " ++ str_exn e)).

Definition get_dataproc_cluster_logs_with_name (env : environment) (project_id
    dataproc_cluster_name : string) (_limit : Z) : outcome :=
  cluster_logs env project_id dataproc_cluster_name "cluster_name" _limit.

Definition get_dataproc_cluster_logs_with_id (env : environment) (project_id
    dataproc_cluster_id : string) (_limit : Z) : outcome :=
  cluster_logs env project_id dataproc_cluster_id "cluster_uuid" _limit.

(** [get_dataproc_normal_job_logs_with_id]: the completed process of
    [gcloud dataproc <filter> wait <job_id> ...] (run with [check=False]),
    or [None] for the empty list that both handlers return.  [shell] is
    the shell of the machine; the parameter [filter] of the source is
    [subcommand] here. *)
Definition get_dataproc_normal_job_logs_with_id
    (shell : string -> result exn Submit.completed_process)
    (project_id region job_id subcommand : string) : option Submit.completed_process :=
  try_except
    (let command :=
       String.concat " " ["gcloud"; "dataproc"; subcommand; "wait"; job_id;
                          "--project"; project_id; "--region"; region] in
     result ← shell command;
     mret (Some result))
    (fun _ => None).

(** [get_dataproc_job_logs_with_id], lines 258 to 272.  Reading
    [.returncode] of the empty list raises [AttributeError]. *)
Definition get_dataproc_job_logs_with_id (env : environment)
    (shell : string -> result exn Submit.completed_process)
    (project_id region job_id : string) (_limit : Z) : outcome :=
  try_except
    (let collected_logs :=
       get_dataproc_logs env project_id "cloud_dataproc_batch" job_id "batch_id" _limit in
     if (length collected_logs =? 0)%nat then
       match get_dataproc_normal_job_logs_with_id shell project_id region job_id "jobs" with
       | None => raise (no_attribute (JList []) "returncode")
       | Some collected_logs =>
           if negb (Submit.returncode collected_logs =? 0) then mret (Report no_entries)
           else mret (Report ("Fetched log entries:" ++ newline
                              ++ Submit.stderr collected_logs ++ newline
                              ++ Submit.stdout collected_logs))
       end
     else mret (Report ("Fetched log entries:" ++ newline
                        ++ String.concat newline collected_logs)))
    (fun e => Error ("Failed to get logs: " ++ str_exn e)).

(** dataflow.py: [get_dataflow_job_logs_with_id].  None of the modelled
    exceptions is [StopIteration], so that handler is not reached here. *)
Definition get_dataflow_job_logs_with_id (env : environment) (project_id job_id : string)
    (_limit : Z) : outcome :=
  try_except
    (match new_client env project_id with
     | Some e => raise e
     | None =>
         iterator ← list_entries env
                      {| resource_names := ["projects/" ++ project_id];
                         order_by := None;
                         page_size := None;
                         max_results := _limit;
                         filter_ := dataflow_filter env job_id |};
         r ← pull_all (entries iterator) (failure iterator) 0 [];
         mret (Report ("Fetched log entries of Job ID: " ++ job_id ++ ":" ++ newline
                       ++ String.concat newline (snd r)))
     end)
    (fun e => Error ("Failed to get job with given id and error: " ++ str_exn e)).

(** A shell for running the tools: every command exits with the given
    status. *)
Definition constant_shell (code : Z) (out err : string)
    : string -> result exn Submit.completed_process :=
  fun _ => ret {| Submit.returncode := code; Submit.stdout := out; Submit.stderr := err |}.

(** A world in which no logging client can be built. *)
Definition offline_env : environment :=
  {| now := 0;
     isoformat := fun _ => "2026-08-06T09:30:00.000000";
     upper := ascii_upper;
     strip := fun s => s;
     new_client := fun _ => Some (OSError "Could not automatically determine credentials.");
     list_entries := fun _ => ret {| entries := []; failure := None |} |}.

End LogTools.

(** ** Sample job names *)

Module SanitizerSamples.
Import Sanitizer.

Definition my_job : list N := of_string "my-job".
Definition digits_first : list N := of_string "123-start".
Definition only_symbols : list N := of_string "!!! ???".

End SanitizerSamples.

(** ** Launching a pipeline (pipeline_utils.py) *)

Module Pipeline.
Import Sanitizer.

Local Close Scope string_scope.

(** Text is a list of code points, as for job names. *)
Abbreviation text := (list N).

(** A [Dict[str, str]]: its items in insertion order. *)
Abbreviation dict := (list (text * text)).

Fixpoint dict_lookup (k : text) (d : dict) : option text :=
  match d with
  | [] => None
  | (k', v) :: rest => if bool_decide (k = k') then Some v else dict_lookup k rest
  end.

(** [d[k] = v]: an existing key keeps its place, a new one goes last. *)
Fixpoint dict_set (k v : text) (d : dict) : dict :=
  match d with
  | [] => [(k, v)]
  | (k', v') :: rest =>
      if bool_decide (k = k') then (k, v) :: rest else (k', v') :: dict_set k v rest
  end.

(** [{**base, **extra}] *)
Definition dict_update (base extra : dict) : dict :=
  fold_left (fun d kv => dict_set (fst kv) (snd kv) d) extra base.

(** [s.startswith(p)] *)
Fixpoint startswith (p s : text) : bool :=
  match p, s with
  | [], _ => true
  | a :: p', b :: s' => (a =? b)%N && startswith p' s'
  | _ :: _, [] => false
  end.

(** [os.path.join(a, b)] on POSIX for a relative, non-empty [b]. *)
Definition path_join (a b : text) : text :=
  match a with
  | [] => b
  | _ => if (List.last a 0 =? 47)%N then a ++ b else a ++ [47%N] ++ b
  end.

(** The world around the launch: the Unicode tables, the interpreter
    ([sys.executable]) and the two random values drawn, [str(uuid4())]
    for the script name and [uuid4().hex] for an empty job name. *)
Record environment : Type := {
  tables : unicode;
  executable : text;
  script_uuid : text;
  name_uuid_hex : text
}.

(** What has been decided by line 122: an error message (the
    ["error_message"] of the returned JSON) or the command line that
    line 124 starts once the directory exists and the script is
    written. *)
Inductive plan : Type :=
| Refused (error_message : text)
| Launch (command : list text).

Definition base_path : text := of_string "plumber/agent/agents/dataflow_agent".

(** Lines 104 to 113 of [generate_and_run_beam_pipeline]. *)
Definition full_args (env : environment) (project_id region gcs_bucket_path job_name : text)
    (pipeline_args : dict) : dict :=
  let sanitized_job_name := _sanitize_job_name (tables env) (name_uuid_hex env) job_name in
  dict_update
    [(of_string "runner", of_string "DataflowRunner");
     (of_string "project", project_id);
     (of_string "region", region);
     (of_string "job_name", sanitized_job_name);
     (of_string "temp_location", path_join gcs_bucket_path (of_string "temp"));
     (of_string "staging_location", path_join gcs_bucket_path (of_string "staging"));
     (of_string "labels",
      of_string ("{" ++ Py.dquote ++ "source" ++ Py.dquote ++ ": "
                 ++ Py.dquote ++ "plumber" ++ Py.dquote ++ "}")%string)]
    pipeline_args.

(** Lines 119 to 122: the interpreter, the script, then [--key value] for
    every item. *)
Definition command_line (env : environment) (args : dict) : list text :=
  let temp_filename :=
    path_join base_path
      (of_string "temp_pipeline_" ++ script_uuid env ++ of_string ".py") in
  [executable env; temp_filename]
  ++ flat_map (fun kv => [of_string "--" ++ fst kv; snd kv]) args.

(** [generate_and_run_beam_pipeline], lines 93 to 122: the two checks and
    the command line.  Creating the directory and writing the script,
    which touch the file system, are left out, and so is what follows:
    running the command and reporting on it. *)
Definition generate_and_run_beam_pipeline (env : environment)
    (project_id region gcs_bucket_path job_name : text) (pipeline_args : dict) : plan :=
  if negb (forallb (fun s => match s with [] => false | _ => true end)
             [project_id; region; gcs_bucket_path]) then
    Refused (of_string "project_id, region, and gcs_bucket_path are required.")
  else if negb (startswith (of_string "gs://") gcs_bucket_path) then
    Refused (of_string "gcs_bucket_path must start with 'gs://'.")
  else
    Launch (command_line env
              (full_args env project_id region gcs_bucket_path job_name pipeline_args)).

(** [create_pipeline_from_scratch], lines 62 to 68. *)
Definition create_pipeline_from_scratch (env : environment)
    (project_id region gcs_bucket_path job_name : text) (pipeline_args : dict)
    (pipeline_type : text) : plan :=
  if negb (bool_decide (pipeline_type ∈ [of_string "batch"; of_string "streaming"])) then
    Refused (of_string "Invalid pipeline type. Please choose 'batch' or 'streaming'.")
  else
    let pipeline_args :=
      if bool_decide (pipeline_type = of_string "streaming")
      then dict_set (of_string "streaming") (of_string "true") pipeline_args
      else pipeline_args in
    generate_and_run_beam_pipeline env project_id region gcs_bucket_path job_name
      pipeline_args.

(** A world for running the launch. *)
Definition sample_env : environment :=
  {| tables := ascii_tables;
     executable := of_string "/usr/bin/python3";
     script_uuid := of_string "6f1c2d3e-0000-4000-8000-000000000001";
     name_uuid_hex := sample_uuid |}.

End Pipeline.

(** ** A log store that does not look at the limit *)

Module LogSamples.
Import Py Logs.


End LogSamples.

(** ** A template definition wrapped in a list *)

Module SubmitListSamples.
Import Py Submit SubmitSamples.

(** The text of a two-element list: the sample template definition,
    then the number 7. *)
Definition wrapped_text : string := "[" ++ template_text ++ ", 7]".

Definition list_decoder (s : string) : result exn json :=
  if String.eqb s inputs_text then ret inputs_value
  else if String.eqb s wrapped_text then ret (JList [template_value; JInt 7])
  else raise (JSONDecodeError "Expecting value: line 1 column 1 (char 0)").

Definition list_world (code : Z) (out err : string) : environment :=
  {| json_loads := list_decoder;
     repr_container := fun _ => "{}";
     shell := fun _ => ret {| returncode := code; stdout := out; stderr := err |};
     signal_repr := fun _ => None |}.

End SubmitListSamples.

(** * Properties *)

(** ** Python sets and substrings *)

Module PyFacts.
Import Py.

Lemma atom_eqb_eq (a b : atom) : atom_eqb a b = true <-> a = b.
Proof.
  destruct a, b; simpl; try (split; [discriminate | congruence]);
    try (split; congruence).
  - rewrite Z.eqb_eq. split; congruence.
  - rewrite String.eqb_eq. split; congruence.
Qed.

Lemma atom_in_elem_of (a : atom) (s : list atom) : atom_in a s = true <-> a ∈ s.
Proof.
  unfold atom_in. rewrite existsb_exists. split.
  - intros (b & Hb & Heq). apply atom_eqb_eq in Heq. subst. by apply list_elem_of_In.
  - intros Ha. exists a. split; [by apply list_elem_of_In | by apply atom_eqb_eq].
Qed.

Lemma elem_of_set_of_atoms (l acc : list atom) (a : atom) :
  a ∈ set_of_atoms l acc <-> a ∈ acc \/ a ∈ l.
Proof.
  revert acc. induction l as [|x l IH]; intros acc; simpl.
  - rewrite elem_of_nil. tauto.
  - rewrite IH, elem_of_cons. destruct (atom_in x acc) eqn:Hx.
    + apply atom_in_elem_of in Hx. split; [tauto |].
      intros [?|[->|?]]; tauto.
    + rewrite elem_of_app, list_elem_of_singleton. tauto.
Qed.

Lemma elem_of_set_difference (a b : list atom) (x : atom) :
  x ∈ set_difference a b <-> x ∈ a /\ x ∉ b.
Proof.
  unfold set_difference. rewrite list_elem_of_filter.
  rewrite <- atom_in_elem_of with (s := b).
  destruct (atom_in x b); simpl; split; intros [? ?]; split; auto; congruence.
Qed.

Lemma atoms_of_strings (l : list string) : atoms_of (map JStr l) = inr (map AStr l).
Proof. induction l as [|x l IH]; simpl; [done | by rewrite IH]. Qed.

Lemma elem_of_map_AStr (k : string) (l : list string) : AStr k ∈ map AStr l <-> k ∈ l.
Proof.
  rewrite !list_elem_of_In, in_map_iff. split.
  - intros (y & Hy & Hin). by inversion Hy; subst.
  - intros Hin. by exists k.
Qed.

Lemma elem_of_map_AStr_inv (a : atom) (l : list string) :
  a ∈ map AStr l -> exists k, a = AStr k /\ k ∈ l.
Proof.
  rewrite list_elem_of_In, in_map_iff. intros (k & <- & Hin).
  exists k. by rewrite list_elem_of_In.
Qed.

Lemma nonempty_iff_inhabited {A} (l : list A) : l <> [] <-> exists x, x ∈ l.
Proof.
  destruct l as [|x l]; split; try done.
  - intros [x Hx]. by apply elem_of_nil in Hx.
  - intros _. exists x. apply list_elem_of_here.
Qed.

Lemma append_nil_r (s : string) : (s ++ EmptyString)%string = s.
Proof.
  induction s as [|c s IH]; [done |].
  change (String c (s ++ EmptyString)%string = String c s). by rewrite IH.
Qed.

Lemma append_assoc (a b c : string) : ((a ++ b) ++ c)%string = (a ++ (b ++ c))%string.
Proof.
  induction a as [|x a IH]; [done |].
  change (String x ((a ++ b) ++ c)%string = String x (a ++ (b ++ c))%string).
  by rewrite IH.
Qed.

Lemma is_prefix_spec (p s : string) :
  is_prefix p s = true <-> exists post, s = (p ++ post)%string.
Proof.
  revert s. induction p as [|a p IH]; intros s; simpl.
  - split; [intros _; by exists s | done].
  - destruct s as [|b s].
    + split; [done | intros [post Hpost]; discriminate].
    + rewrite andb_true_iff, Ascii.eqb_eq, IH. split.
      * intros [-> [post ->]]. by exists post.
      * intros [post Hpost]. injection Hpost as -> ->. split; [done | by exists post].
Qed.

(** [contains] is the substring test. *)
Lemma contains_spec (needle hay : string) :
  contains needle hay = true <-> exists pre post, hay = (pre ++ needle ++ post)%string.
Proof.
  induction hay as [|c hay IH].
  - simpl. rewrite orb_false_r, is_prefix_spec. split.
    + intros [post Hpost]. by exists EmptyString, post.
    + intros ([|a pre] & post & Hpost); [by exists post | discriminate].
  - cbn [contains]. rewrite orb_true_iff, is_prefix_spec, IH. split.
    + intros [[post Hpost] | (pre & post & ->)].
      * by exists EmptyString, post.
      * by exists (String c pre), post.
    + intros ([|a pre] & post & Hpost).
      * left. by exists post.
      * right. injection Hpost as -> ->. by exists pre, post.
Qed.

End PyFacts.

(** ** The parameter validator *)

Module ValidatorFacts.
Import Py Validator PyFacts.
Local Open Scope list_scope.

(** On a well-typed template definition and a dict of inputs no exception
    is raised, and the function is the two set differences. *)
Lemma validate_input_params_typed td ui required optional :
  declares td "required" required ->
  declares td "optional" optional ->
  validate_input_params (JObj td) (JObj ui) =
    let keys := set_of_atoms (map AStr (map fst ui)) [] in
    let invalid :=
      set_difference keys (set_of_atoms (map AStr (required ++ optional)) []) in
    if bool_decide (invalid <> []) then
      failed_with (InvalidParams invalid (JList (map JStr (required ++ optional))))
    else
      let missing := set_difference (set_of_atoms (map AStr required) []) keys in
      if bool_decide (missing <> []) then failed_with (MissingRequired missing)
      else {| validation_result := "success"; comment := ValidationPassed |}.
Proof.
  intros Hreq Hopt. unfold validate_input_params, dict_get.
  assert (default (JList []) (assoc "required" td) = JList (map JStr required)) as ->.
  { destruct Hreq as [-> | [-> ->]]; done. }
  assert (default (JList []) (assoc "optional" td) = JList (map JStr optional)) as ->.
  { destruct Hopt as [-> | [-> ->]]; done. }
  unfold py_add, dict_keys, py_set, mbind, result_bind, mret, result_ret.
  unfold try_except, failed_with.
  repeat first [rewrite <- map_app | rewrite atoms_of_strings
               | progress unfold bind, ret | progress cbn beta iota zeta].
  repeat case_bool_decide; reflexivity.
Qed.

Lemma invalid_nonempty_iff (keys defined : list string) :
  set_difference (set_of_atoms (map AStr keys) []) (set_of_atoms (map AStr defined) []) <> []
  <-> exists k, k ∈ keys /\ k ∉ defined.
Proof.
  rewrite nonempty_iff_inhabited. split.
  - intros [a Ha]. apply elem_of_set_difference in Ha as [Hin Hnot].
    rewrite elem_of_set_of_atoms in Hin, Hnot.
    destruct Hin as [Hin | Hin]; [by apply elem_of_nil in Hin |].
    apply elem_of_map_AStr_inv in Hin as (k & -> & Hk).
    exists k. split; [done |]. intros Hd. apply Hnot. right. by apply elem_of_map_AStr.
  - intros (k & Hk & Hnot). exists (AStr k). apply elem_of_set_difference.
    rewrite !elem_of_set_of_atoms, !elem_of_map_AStr, !elem_of_nil. tauto.
Qed.

Lemma set_difference_nonempty (a b : list atom) :
  set_difference a b <> [] <-> exists x, x ∈ a /\ x ∉ b.
Proof.
  rewrite nonempty_iff_inhabited.
  split; intros [x Hx]; exists x; by apply elem_of_set_difference.
Qed.

Lemma difference_members (xs ys : list string) (a : atom) :
  a ∈ set_difference (set_of_atoms (map AStr xs) []) (set_of_atoms (map AStr ys) [])
  <-> exists k, a = AStr k /\ k ∈ xs /\ k ∉ ys.
Proof.
  rewrite elem_of_set_difference, !elem_of_set_of_atoms, !elem_of_nil. split.
  - intros [[[] | Hin] Hnot]. apply elem_of_map_AStr_inv in Hin as (k & -> & Hk).
    exists k. rewrite elem_of_map_AStr in Hnot. tauto.
  - intros (k & -> & Hk & Hnot). rewrite !elem_of_map_AStr. tauto.
Qed.

(** C1. On a template definition whose 'required' and 'optional' entries
    are lists of names (a missing entry counting as empty) and a dict of
    user inputs, [validate_input_params] answers "success" exactly when
    every key of the inputs is a required or optional name and every
    required name is a key; otherwise it answers "failed", reporting the
    invalid keys when there are some and else the missing required
    names. *)
Theorem validate_input_params_spec td ui required optional :
  declares td "required" required ->
  declares td "optional" optional ->
  let r := validate_input_params (JObj td) (JObj ui) in
  let keys := map fst ui in
  (validation_result r = "success" <-> keys ⊆ required ++ optional /\ required ⊆ keys)
  /\ (validation_result r <> "success" -> validation_result r = "failed")
  /\ (~ keys ⊆ required ++ optional ->
      exists invalid,
        comment r = InvalidParams invalid (JList (map JStr (required ++ optional)))
        /\ forall a, a ∈ invalid <-> exists k, a = AStr k /\ k ∈ keys /\ k ∉ required ++ optional)
  /\ (keys ⊆ required ++ optional -> ~ required ⊆ keys ->
      exists missing,
        comment r = MissingRequired missing
        /\ forall a, a ∈ missing <-> exists k, a = AStr k /\ k ∈ required /\ k ∉ keys).
Proof.
  intros Hreq Hopt r keys. subst r.
  rewrite (validate_input_params_typed td ui required optional Hreq Hopt).
  cbn zeta. fold keys.
  assert (Hsub : forall xs ys : list string,
             xs ⊆ ys <-> ~ exists k, k ∈ xs /\ k ∉ ys).
  { intros xs ys. split.
    - intros Hs (k & Hk & Hn). apply Hn, Hs, Hk.
    - intros Hn k Hk. destruct (decide (k ∈ ys)) as [|Hno]; [done |].
      exfalso. apply Hn. by exists k. }
  rewrite !Hsub. rewrite <- !invalid_nonempty_iff.
  case_bool_decide as Hinv; [| case_bool_decide as Hmiss]; cbn.
  - repeat split; try done; try tauto.
    intros _. eexists. split; [reflexivity |]. apply difference_members.
  - repeat split; try done; try tauto.
    intros _ _. eexists. split; [reflexivity |]. apply difference_members.
  - repeat split; try done; try tauto.
Qed.

Lemma validate_input_params_spec_witness :
  let td := [("required", JList (map JStr ["source"; "target"]));
             ("optional", JList (map JStr ["mode"]))] in
  let ui := [("source", JStr "a"); ("target", JStr "b")] in
  declares td "required" ["source"; "target"]
  /\ declares td "optional" ["mode"]
  /\ (validation_result (validate_input_params (JObj td) (JObj ui)) = "success"
      <-> map fst ui ⊆ ["source"; "target"] ++ ["mode"]
          /\ ["source"; "target"] ⊆ map fst ui).
Proof.
  intros td ui.
  assert (H1 : declares td "required" ["source"; "target"]) by (left; reflexivity).
  assert (H2 : declares td "optional" ["mode"]) by (left; reflexivity).
  split; [exact H1 | split; [exact H2 |]].
  exact (proj1 (validate_input_params_spec td ui _ _ H1 H2)).
Defined.

(** C10. The status of a validation depends on the keys of the user
    inputs only: two dicts with the same keys get the same
    [validation_result], whatever their values and whatever the template
    definition. *)
Theorem validation_result_keys_only (template_definition : json)
    (ui1 ui2 : list (string * json)) :
  (forall k, k ∈ map fst ui1 <-> k ∈ map fst ui2) ->
  validation_result (validate_input_params template_definition (JObj ui1))
  = validation_result (validate_input_params template_definition (JObj ui2)).
Proof.
  intros Hkeys. unfold validate_input_params.
  destruct (dict_get template_definition "required" (JList [])) as [e | required_params];
    [reflexivity |].
  destruct (dict_get template_definition "optional" (JList [])) as [e | optional_params];
    [reflexivity |].
  unfold mbind, result_bind, bind. cbn beta iota.
  destruct (py_add required_params optional_params) as [e | all_defined_params];
    [reflexivity |].
  unfold dict_keys, ret. cbn beta iota.
  destruct (py_set all_defined_params) as [e | defined]; [reflexivity |].
  assert (Hset : forall a, a ∈ set_of_atoms (map AStr (map fst ui1)) []
                       <-> a ∈ set_of_atoms (map AStr (map fst ui2)) []).
  { intros a. rewrite !elem_of_set_of_atoms. split.
    - intros [? | Ha]; [by left |]. right.
      apply elem_of_map_AStr_inv in Ha as (k & -> & Hk).
      apply elem_of_map_AStr, Hkeys, Hk.
    - intros [? | Ha]; [by left |]. right.
      apply elem_of_map_AStr_inv in Ha as (k & -> & Hk).
      apply elem_of_map_AStr, Hkeys, Hk. }
  assert (Hinv : set_difference (set_of_atoms (map AStr (map fst ui1)) []) defined <> []
                 <-> set_difference (set_of_atoms (map AStr (map fst ui2)) []) defined <> []).
  { rewrite !set_difference_nonempty.
    split; intros (x & Hx & Hn); exists x; split; try done; by apply Hset. }
  do 2 case_bool_decide; try tauto; try reflexivity.
  destruct (py_set required_params) as [e | required]; [reflexivity |].
  assert (Hmiss : set_difference required (set_of_atoms (map AStr (map fst ui1)) []) <> []
                  <-> set_difference required (set_of_atoms (map AStr (map fst ui2)) []) <> []).
  { rewrite !set_difference_nonempty.
    split; intros (x & Hx & Hn); exists x; split; try done;
      intros Hin; apply Hn; by apply Hset. }
  do 2 case_bool_decide; try tauto; reflexivity.
Qed.

Lemma validation_result_keys_only_witness :
  let td := JObj [("required", JList [JStr "source"])] in
  let ui1 := [("source", JStr "a")] in
  let ui2 := [("source", JStr "b")] in
  (forall k, k ∈ map fst ui1 <-> k ∈ map fst ui2)
  /\ validation_result (validate_input_params td (JObj ui1))
     = validation_result (validate_input_params td (JObj ui2)).
Proof.
  intros td ui1 ui2.
  assert (H : forall k, k ∈ map fst ui1 <-> k ∈ map fst ui2) by (intros k; reflexivity).
  split; [exact H | exact (validation_result_keys_only td ui1 ui2 H)].
Defined.

End ValidatorFacts.

(** ** Job submission *)

Module SubmitFacts.
Import Py Validator Submit PyFacts.

Ltac run_monad :=
  unfold mbind, result_bind, mret, result_ret, bind, ret, raise, lift; cbn beta iota.

Lemma is_flex_spec (path : string) (descriptor : list (string * json)) :
  is_flex path descriptor = true
  <-> (exists pre post, path = pre ++ "/flex/" ++ post)
      \/ assoc "type" descriptor = Some (JStr "FLEX").
Proof.
  unfold is_flex. rewrite orb_true_iff, contains_spec.
  apply or_iff_compat_l. unfold eq_str.
  destruct (assoc "type" descriptor) as [[| | |t| |]|]; cbn;
    try (split; [discriminate | intros [=]]).
  rewrite String.eqb_eq. split; [by intros -> | by intros [=]].
Qed.

Lemma flex_cmd_not_classic j p r t s j' p' r' t' s' g' :
  flex_cmd j p r t s <> classic_cmd j' p' r' t' s' g'.
Proof. unfold flex_cmd, classic_cmd. cbn. discriminate. Qed.

Lemma run_cmd_flex_or_shape env job_name gcp_project region gcs_staging_location
    (user_inputs descriptor : list (string * json)) (template_gcs_path : string) :
  run_cmd env job_name gcp_project region gcs_staging_location
    (JObj user_inputs) (JObj descriptor) (JStr template_gcs_path)
  = inr (if is_flex template_gcs_path descriptor
         then flex_cmd job_name gcp_project region template_gcs_path
                (parameters_str env user_inputs)
         else classic_cmd job_name gcp_project region template_gcs_path
                (parameters_str env user_inputs) gcs_staging_location).
Proof.
  unfold run_cmd, is_flex, dict_items, py_in, dict_get, parameters_str. run_monad.
  destruct (contains "/flex/" template_gcs_path); cbn; [reflexivity |].
  destruct (eq_str (default JNull (assoc "type" descriptor)) "FLEX"); reflexivity.
Qed.

(** C4. For a descriptor that is a dict and a resolved path that is a
    string, the command built is [gcloud dataflow flex-template run <job>
    ... --template-file-gcs-location=<path> ...] exactly when the path
    contains [/flex/] or the descriptor's type is "FLEX", and else
    [gcloud dataflow jobs run <job> ... --gcs-location=<path> ...
    --staging-location=<staging> ...]; both carry the parameters as
    [^###^k1=v1###k2=v2] between double quotes and the label
    [source=plumber]. *)
Theorem run_cmd_flex_or_classic env job_name gcp_project region gcs_staging_location
    (user_inputs descriptor : list (string * json)) (template_gcs_path : string) :
  let quote := String (ascii_of_nat 34) EmptyString in
  let parameters :=
    "^###^" ++ String.concat "###"
                 (map (fun kv => fst kv ++ "=" ++ py_str env (snd kv)) user_inputs) in
  run_cmd env job_name gcp_project region gcs_staging_location
    (JObj user_inputs) (JObj descriptor) (JStr template_gcs_path)
  = inr (if is_flex template_gcs_path descriptor
         then "gcloud dataflow flex-template run " ++ job_name
              ++ " --project=" ++ gcp_project ++ " --region=" ++ region
              ++ " --template-file-gcs-location=" ++ template_gcs_path
              ++ " --parameters " ++ quote ++ parameters ++ quote
              ++ " --additional-user-labels=source=plumber"
         else "gcloud dataflow jobs run " ++ job_name
              ++ " --project=" ++ gcp_project ++ " --region=" ++ region
              ++ " --gcs-location=" ++ template_gcs_path
              ++ " --parameters " ++ quote ++ parameters ++ quote
              ++ " --staging-location=" ++ gcs_staging_location
              ++ " --additional-user-labels=source=plumber")
  /\ (is_flex template_gcs_path descriptor = true
      <-> (exists pre post, template_gcs_path = pre ++ "/flex/" ++ post)
          \/ assoc "type" descriptor = Some (JStr "FLEX")).
Proof.
  intros quote parameters. split; [| apply is_flex_spec].
  rewrite run_cmd_flex_or_shape. destruct (is_flex template_gcs_path descriptor); reflexivity.
Qed.

(** The text of a [CalledProcessError] names the command and the exit
    status, never what the command printed. *)
Lemma str_error_ignores_output env cmd code out err out' err' :
  str_error env (CalledProcessError cmd code out err)
  = str_error env (CalledProcessError cmd code out' err').
Proof. reflexivity. Qed.

Lemma subprocess_run_nonzero env cmd p :
  shell env cmd = inr p ->
  returncode p <> 0 ->
  subprocess_run env cmd
  = inl (CalledProcessError cmd (returncode p) (stdout p) (stderr p)).
Proof.
  intros Hshell Hcode. unfold subprocess_run. rewrite Hshell. run_monad.
  by apply Z.eqb_neq in Hcode as ->.
Qed.

(** Once both texts decode to dicts, the path resolves to a non-empty
    string and the parameter check lets the call through, the command of
    lines 300 to 311 is what the shell runs. *)
Lemma submit_runs_cmd env job_name input_params template_params gcp_project region
    gcs_staging_location custom_gcs_path user_inputs descriptor path :
  json_loads env input_params = inr (JObj user_inputs) ->
  json_loads env template_params = inr (JObj descriptor) ->
  (if truthy (JStr custom_gcs_path) then inr (JStr custom_gcs_path)
   else dict_get (JObj descriptor) "template_gcs_path" JNull) = inr (JStr path) ->
  path <> EmptyString ->
  check_params custom_gcs_path (JObj user_inputs) (JObj descriptor) = inr None ->
  let cmd :=
    if is_flex path descriptor
    then flex_cmd job_name gcp_project region path (parameters_str env user_inputs)
    else classic_cmd job_name gcp_project region path (parameters_str env user_inputs)
           gcs_staging_location in
  submit_dataflow_template env job_name input_params template_params gcp_project region
    gcs_staging_location custom_gcs_path
  = match subprocess_run env cmd with
    | inr cmd_run_status =>
        {| status := "success"; job_stdout := Some (stdout cmd_run_status);
           submit_note := JobSubmitted |}
    | inl err => failed (Unexpected (str_error env err))
    end.
Proof.
  intros Hin Htp Hpath Hne Hcheck cmd. unfold submit_dataflow_template.
  rewrite Hin, Htp. run_monad.
  assert (Htruthy : truthy (JStr path) = true).
  { cbn. apply negb_true_iff, String.eqb_neq, Hne. }
  destruct (truthy (JStr custom_gcs_path)) eqn:Hcustom.
  - injection Hpath as ->. rewrite Hcustom, Hcheck. cbn [negb].
    rewrite run_cmd_flex_or_shape. fold cmd. unfold try_except.
    by destruct (subprocess_run env cmd).
  - rewrite Hpath, Htruthy, Hcheck. cbn [negb].
    rewrite run_cmd_flex_or_shape. fold cmd. unfold try_except.
    by destruct (subprocess_run env cmd).
Qed.

(** Whenever the command exits with a non-zero status the result is a
    failure, and its comment is computed from the command and the status
    alone. *)
Lemma submit_nonzero_exit env job_name input_params template_params gcp_project region
    gcs_staging_location custom_gcs_path user_inputs descriptor path p :
  json_loads env input_params = inr (JObj user_inputs) ->
  json_loads env template_params = inr (JObj descriptor) ->
  (if truthy (JStr custom_gcs_path) then inr (JStr custom_gcs_path)
   else dict_get (JObj descriptor) "template_gcs_path" JNull) = inr (JStr path) ->
  path <> EmptyString ->
  check_params custom_gcs_path (JObj user_inputs) (JObj descriptor) = inr None ->
  let cmd :=
    if is_flex path descriptor
    then flex_cmd job_name gcp_project region path (parameters_str env user_inputs)
    else classic_cmd job_name gcp_project region path (parameters_str env user_inputs)
           gcs_staging_location in
  shell env cmd = inr p ->
  returncode p <> 0 ->
  submit_dataflow_template env job_name input_params template_params gcp_project region
    gcs_staging_location custom_gcs_path
  = failed (Unexpected
      (str_error env (CalledProcessError cmd (returncode p) EmptyString EmptyString))).
Proof.
  intros Hin Htp Hpath Hne Hcheck cmd Hshell Hcode.
  rewrite (submit_runs_cmd env job_name input_params template_params gcp_project region
             gcs_staging_location custom_gcs_path user_inputs descriptor path
             Hin Htp Hpath Hne Hcheck).
  fold cmd. by rewrite (subprocess_run_nonzero env cmd p Hshell Hcode).
Qed.

(** C8 (the code departs from it). With a staged classic template and a
    [gcloud] that exits with status 1, the result is a failure whose
    comment is the generic text of the exception: it has no ['stdout']
    entry and is the same whatever the command wrote to its standard
    output and standard error. *)
Theorem submit_nonzero_exit_drops_output (out err : string) :
  submit_dataflow_template (failing_shell out err)
    "job1" "{}" "{}" "p" "us-central1" "gs://bkt/staging" "gs://bkt/templates/classic/Foo"
  = {| status := "failed";
       job_stdout := None;
       submit_note := Unexpected
         ("Command 'gcloud dataflow jobs run job1 --project=p --region=us-central1"
          ++ " --gcs-location=gs://bkt/templates/classic/Foo --parameters "
          ++ dquote ++ "^###^" ++ dquote
          ++ " --staging-location=gs://bkt/staging"
          ++ " --additional-user-labels=source=plumber'"
          ++ " returned non-zero exit status 1.") |}.
Proof. vm_compute. reflexivity. Qed.

(** When [template_params] decodes to a non-empty list, its first
    element is the descriptor of the whole run: the result is the one
    obtained from any other list with the same first element, and, when
    that element is not itself a non-empty list, the one obtained by
    passing the element alone. *)
Theorem submit_list_uses_first env job_name input_params template_params gcp_project
    region gcs_staging_location custom_gcs_path (first : json) (others : list json) :
  json_loads env template_params = inr (JList (first :: others)) ->
  forall template_params',
    (json_loads env template_params' = inr first /\ ~ wrapped first)
    \/ (exists others', json_loads env template_params' = inr (JList (first :: others'))) ->
    submit_dataflow_template env job_name input_params template_params' gcp_project
      region gcs_staging_location custom_gcs_path
    = submit_dataflow_template env job_name input_params template_params gcp_project
        region gcs_staging_location custom_gcs_path.
Proof.
  intros Hlist template_params' Hother. unfold submit_dataflow_template.
  destruct (json_loads env input_params) as [e | user_input_dict]; [reflexivity |].
  run_monad. rewrite Hlist. cbn beta iota.
  destruct Hother as [[-> Hplain] | [others' ->]]; [| reflexivity].
  cbn beta iota. destruct first as [| | | | [|x l] |]; try reflexivity.
  by destruct Hplain.
Qed.

Lemma submit_list_uses_first_witness :
  let env := failing_shell "" "" in
  json_loads env "[{}, 7]" = inr (JList [JObj []; JInt 7])
  /\ submit_dataflow_template env "job1" "{}" "{}" "p" "r" "gs://b/s" "gs://b/t"
     = submit_dataflow_template env "job1" "{}" "[{}, 7]" "p" "r" "gs://b/s" "gs://b/t".
Proof.
  intros env.
  assert (H : json_loads env "[{}, 7]" = inr (JList [JObj []; JInt 7])) by reflexivity.
  split; [exact H |].
  apply (submit_list_uses_first env "job1" "{}" "[{}, 7]" "p" "r" "gs://b/s" "gs://b/t"
           (JObj []) [JInt 7] H "{}").
  left. split; [reflexivity | intros []].
Defined.

End SubmitFacts.

(** ** Log queries *)

Module LogsFacts.
Import Py Logs PyFacts.

Lemma severity_loop_spec env severities sev full_filter :
  severity_loop env severities (Some sev) full_filter
  = if existsb (fun tok => contains tok (upper env sev)) severities
    then full_filter ++ " AND " ++ sev
    else full_filter.
Proof.
  induction severities as [|tok rest IH]; cbn; [reflexivity |].
  destruct (contains tok (upper env sev)); [reflexivity | exact IH].
Qed.

Lemma severity_loop_none env severities full_filter :
  severity_loop env severities None full_filter = full_filter.
Proof. induction severities; cbn; auto. Qed.

Lemma mentions_severity_spec env sev :
  mentions_severity env sev = true
  <-> exists tok pre post, tok ∈ SEVERITIES_LIST /\ upper env sev = pre ++ tok ++ post.
Proof.
  unfold mentions_severity. rewrite existsb_exists. split.
  - intros (tok & Hin & Hc). apply contains_spec in Hc as (pre & post & Hc).
    exists tok, pre, post. by rewrite list_elem_of_In.
  - intros (tok & pre & post & Hin & Hc). exists tok.
    rewrite <- list_elem_of_In. split; [done |]. apply contains_spec. eauto.
Qed.

(** C5, as the code has it.  The filter is the resource text, followed by
    [" AND "] and the caller's severity text itself (not a
    [severity=<token>] clause) exactly when that text, upper-cased,
    contains one of the valid severities; with no such token, or no
    severity at all, nothing is appended. *)
Theorem severity_text_appended_verbatim env project_id severity resource _limit :
  filter_ (resource_based_call_args env project_id severity resource _limit)
  = match severity with
    | Some sev => if mentions_severity env sev then resource ++ " AND " ++ sev else resource
    | None => resource
    end
  /\ forall sev,
       mentions_severity env sev = true
       <-> exists tok pre post, tok ∈ SEVERITIES_LIST /\ upper env sev = pre ++ tok ++ post.
Proof.
  split; [| apply mentions_severity_spec].
  unfold resource_based_call_args, mentions_severity. cbn [filter_].
  destruct severity as [sev |].
  - apply severity_loop_spec.
  - apply severity_loop_none.
Qed.

(** C5 as the spec states it fails: for the severity text "ERROR" the
    code appends [AND ERROR], not [AND severity=ERROR]. *)
Lemma severity_clause_not_as_specified :
  let resource := "resource.type=gce_instance" in
  matched_severity sample_env (Some "ERROR") = Some "ERROR"
  /\ spec_filter sample_env (Some "ERROR") resource
     = "resource.type=gce_instance AND severity=ERROR"
  /\ filter_ (resource_based_call_args sample_env "p" (Some "ERROR") resource 10)
     = "resource.type=gce_instance AND ERROR"
  /\ filter_ (resource_based_call_args sample_env "p" (Some "ERROR") resource 10)
     <> spec_filter sample_env (Some "ERROR") resource.
Proof. cbn. repeat split; try reflexivity. discriminate. Qed.

Lemma contains_timestamp_clause env (before : string) :
  contains (timestamp_clause env) (before ++ timestamp_clause env) = true.
Proof. apply contains_spec. exists before, EmptyString. by rewrite append_nil_r. Qed.

(** C6 (the code departs from it).  The Dataproc and Dataflow filters
    end with the clause [timestamp >= "<now - 90 days>Z"], but in
    [get_latest_resource_based_logs] the filter that carries the clause
    is overwritten: with the default severity the filter handed to
    [list_entries] is the resource text alone, with no timestamp bound. *)
Theorem resource_based_filter_loses_timestamp :
  (forall env resource_name query_str label,
     contains (timestamp_clause env) (dataproc_filter env resource_name query_str label) = true)
  /\ (forall env job_id, contains (timestamp_clause env) (dataflow_filter env job_id) = true)
  /\ filter_ (resource_based_call_args sample_env "my-project" (Some EmptyString)
                "resource.type=gce_instance" 10)
     = "resource.type=gce_instance"
  /\ contains "timestamp"
       (filter_ (resource_based_call_args sample_env "my-project" (Some EmptyString)
                   "resource.type=gce_instance" 10)) = false.
Proof.
  split; [| split; [| split; reflexivity]].
  - intros. unfold dataproc_filter. rewrite <- !append_assoc.
    apply contains_timestamp_clause.
  - intros. unfold dataflow_filter. rewrite <- !append_assoc.
    apply contains_timestamp_clause.
Qed.

(** The loop appends one line per entry consumed, numbers them from the
    count it started with, never consumes more than the iterator yields,
    and stops once the count reaches 10. *)
Lemma pull_bounds it fail log_count collected log_count' collected' :
  log_count = Z.of_nat (length collected) ->
  pull it fail log_count collected = inr (log_count', collected') ->
  log_count' = Z.of_nat (length collected')
  /\ (length collected' <= length collected + length it)%nat
  /\ (length collected < 10 -> length collected' <= 10)%nat.
Proof.
  revert log_count collected.
  induction it as [|entry rest IH]; intros log_count collected Hcount Hpull; cbn in Hpull.
  - destruct fail; [discriminate |]. injection Hpull as <- <-.
    split; [done | split; lia].
  - destruct (10 <=? log_count + 1) eqn:Hten.
    + injection Hpull as <- <-. rewrite length_app. cbn [length].
      apply Z.leb_le in Hten. split; [lia | split; lia].
    + apply Z.leb_gt in Hten. apply IH in Hpull.
      * rewrite length_app in Hpull. cbn [length] in *. lia.
      * rewrite length_app. cbn [length]. lia.
Qed.


(** When the client library honours [max_results], the log tools
    return at most as many entries as the caller's limit:
    [get_dataproc_logs] returns a list no longer than the limit, and the
    entries collected by [get_latest_resource_based_logs], when the fetch
    succeeds, are no more than the limit (and are as many as the count
    the loop kept). *)
Theorem log_entries_at_most_limit env project_id resource_name query_str label
    severity resource (_limit : Z) :
  honours_max_results env ->
  0 <= _limit ->
  Z.of_nat (length (get_dataproc_logs env project_id resource_name query_str label _limit))
    <= _limit
  /\ match resource_based_entries env project_id severity resource _limit with
     | inr (log_count, collected_logs) =>
         Z.of_nat (length collected_logs) <= _limit
         /\ log_count = Z.of_nat (length collected_logs)
     | inl _ => True
     end.
Proof.
  intros Hlib Hlimit. split.
  - unfold get_dataproc_logs, try_except.
    destruct (new_client env project_id); [cbn; lia |].
    unfold mbind, result_bind, bind, mret, result_ret, ret.
    destruct (list_entries env _) as [e | it] eqn:Hit; [cbn; lia |].
    apply Hlib in Hit. cbn in Hit.
    destruct (pull (entries it) (failure it) 0 []) as [e | [n logs]] eqn:Hpull; [cbn; lia |].
    apply pull_bounds in Hpull; [| done]. cbn in *. lia.
  - unfold resource_based_entries, mbind, result_bind, bind.
    destruct (list_entries env _) as [e | it] eqn:Hit; [done |].
    apply Hlib in Hit. cbn in Hit.
    destruct (pull (entries it) (failure it) 0 []) as [e | [n logs]] eqn:Hpull; [done |].
    apply pull_bounds in Hpull; [| done]. cbn in *. lia.
Qed.

Lemma sample_env_honours_max_results : honours_max_results sample_env.
Proof.
  intros args it Hit. injection Hit as <-. cbn [entries]. rewrite length_take. lia.
Qed.

Lemma log_entries_at_most_limit_witness :
  honours_max_results sample_env
  /\ 0 <= 3
  /\ Z.of_nat (length (get_dataproc_logs sample_env "p" "cloud_dataproc_cluster"
                         "my-cluster" "cluster_name" 3)) <= 3.
Proof.
  split; [exact sample_env_honours_max_results | split; [lia |]].
  exact (proj1 (log_entries_at_most_limit sample_env "p" "cloud_dataproc_cluster"
                  "my-cluster" "cluster_name" None "r" 3
                  sample_env_honours_max_results ltac:(lia))).
Defined.



End LogsFacts.

(** ** Job names *)

Module SanitizerFacts.
Import Sanitizer.
Local Close Scope string_scope.
Local Open Scope N_scope.

Abbreviation in_class_all := (Forall (fun c => in_class c = true)).

Lemma replace_outside_in_class s : in_class_all (replace_outside s).
Proof.
  unfold replace_outside. induction s as [|x s IH]; constructor; [| exact IH].
  destruct (in_class x) eqn:Hx; [exact Hx | reflexivity].
Qed.

Lemma length_replace_outside s : length (replace_outside s) = length s.
Proof. apply length_map. Qed.

Lemma collapse_Forall (P : N -> Prop) s : Forall P s -> Forall P (collapse s).
Proof.
  induction s as [|c rest IH]; intros Hs; [constructor |].
  inversion Hs as [|? ? Hc Hrest]; subst. specialize (IH Hrest).
  cbn [collapse]. destruct rest as [|d rest']; [by constructor |].
  destruct (is_hyphen c && is_hyphen d); [exact IH | by constructor].
Qed.

Lemma length_collapse s : (length (collapse s) <= length s)%nat.
Proof.
  induction s as [|c rest IH]; [done |].
  cbn [collapse]. destruct rest as [|d rest']; [done |].
  destruct (is_hyphen c && is_hyphen d); cbn [length] in *; lia.
Qed.

(** [lstrip] removes a prefix made of hyphens. *)
Lemma lstrip_spec s :
  exists h, s = h ++ lstrip s /\ Forall (fun c => is_hyphen c = true) h.
Proof.
  induction s as [|c rest (h & Hh & Hall)].
  - by exists [].
  - cbn [lstrip]. destruct (is_hyphen c) eqn:Hc.
    + exists (c :: h). split; [cbn; by rewrite <- Hh | by constructor].
    + by exists [].
Qed.

Lemma lstrip_head s c l : lstrip s = c :: l -> is_hyphen c = false.
Proof.
  induction s as [|x rest IH]; cbn [lstrip]; [discriminate |].
  destruct (is_hyphen x) eqn:Hx; [exact IH |]. by intros [= <- <-].
Qed.

Lemma lstrip_Forall (P : N -> Prop) s : Forall P s -> Forall P (lstrip s).
Proof.
  destruct (lstrip_spec s) as (h & Hh & _). intros Hs.
  rewrite Hh in Hs. by apply Forall_app in Hs as [_ ?].
Qed.

Lemma length_lstrip s : (length (lstrip s) <= length s)%nat.
Proof.
  destruct (lstrip_spec s) as (h & Hh & _).
  rewrite Hh at 2. rewrite length_app. lia.
Qed.

Lemma strip_Forall (P : N -> Prop) s : Forall P s -> Forall P (strip s).
Proof.
  intros Hs. unfold strip.
  by apply Forall_rev, lstrip_Forall, Forall_rev, lstrip_Forall.
Qed.

Lemma length_strip s : (length (strip s) <= length s)%nat.
Proof.
  unfold strip. rewrite length_rev.
  etransitivity; [apply length_lstrip |]. rewrite length_rev. apply length_lstrip.
Qed.

Lemma last_rev_hd (l : list N) d : List.last (rev l) d = hd d l.
Proof. destruct l as [|x l]; [done |]. cbn [rev hd]. apply last_last. Qed.

(** A stripped name neither starts nor ends with a hyphen. *)
Lemma strip_ends s c l :
  strip s = c :: l ->
  is_hyphen c = false /\ is_hyphen (List.last (c :: l) 0) = false.
Proof.
  unfold strip. intros Hs.
  destruct (lstrip (rev (lstrip s))) as [|x u'] eqn:Hu; [discriminate |].
  split.
  - destruct (lstrip_spec (rev (lstrip s))) as (h & Hh & _).
    rewrite Hu in Hh. apply (f_equal (@rev N)) in Hh.
    rewrite rev_involutive, rev_app_distr, Hs in Hh.
    cbn [app] in Hh. by apply lstrip_head in Hh.
  - rewrite <- Hs, last_rev_hd. cbn [hd]. by apply lstrip_head in Hu.
Qed.

Lemma in_class_not_hyphen c :
  in_class c = true -> is_hyphen c = false -> is_letter c || is_digit c = true.
Proof. unfold in_class. intros H Hh. by rewrite Hh, orb_false_r in H. Qed.

Lemma is_hex_in_class c : is_hex c = true -> is_letter c || is_digit c = true.
Proof.
  unfold is_hex, is_letter, is_digit.
  rewrite !orb_true_iff, !andb_true_iff, !N.leb_le. lia.
Qed.

Lemma alnum_in_class c : is_letter c || is_digit c = true -> in_class c = true.
Proof. unfold in_class. by intros ->. Qed.

Lemma job_prefix_in_class : in_class_all job_prefix.
Proof. repeat constructor. Qed.

Lemma last_app_cons (a : list N) x b d : List.last (a ++ x :: b) d = List.last (x :: b) d.
Proof.
  induction a as [|y a IH]; [done |].
  cbn [app]. rewrite <- IH. cbn [List.last]. by destruct (a ++ x :: b) eqn:E; [destruct a |].
Qed.

Lemma Forall_last (P : N -> Prop) x l d : Forall P (x :: l) -> P (List.last (x :: l) d).
Proof.
  revert x. induction l as [|y l IH]; intros x Hall.
  - by inversion Hall.
  - inversion Hall; subst. change (P (List.last (y :: l) d)). by apply IH.
Qed.

Lemma cleaned_in_class u name : in_class_all (cleaned u name).
Proof. apply strip_Forall, collapse_Forall, replace_outside_in_class. Qed.

Lemma length_cleaned u name : (length (cleaned u name) <= length (lower u name))%nat.
Proof.
  unfold cleaned. etransitivity; [apply length_strip |].
  etransitivity; [apply length_collapse |]. by rewrite length_replace_outside.
Qed.

(** On a non-empty cleaned text the function prefixes [job-] unless the
    text starts with a letter, and cuts at 63 characters; the test on the
    last character never fires. *)
Lemma sanitize_nonempty u uuid_hex name first l :
  unicode_ok u ->
  cleaned u name = first :: l ->
  _sanitize_job_name u uuid_hex name
  = take 63 (if is_letter first then first :: l else job_prefix ++ first :: l).
Proof.
  intros Hu Hclean. unfold _sanitize_job_name. fold (cleaned u name). rewrite Hclean.
  pose proof (cleaned_in_class u name) as Hall. rewrite Hclean in Hall.
  destruct (strip_ends _ _ _ Hclean) as [Hfirst Hlast].
  assert (Hfc : in_class first = true) by (by inversion Hall).
  rewrite (isalpha_in_class u Hu first Hfc).
  assert (Hlc : in_class (List.last (first :: l) 0) = true) by (by apply Forall_last).
  assert (Halnum : isalnum u (List.last (first :: l) 0) = true).
  { rewrite (isalnum_in_class u Hu _ Hlc). by apply in_class_not_hyphen. }
  destruct (is_letter first); cbn [negb].
  - by rewrite Halnum.
  - by rewrite last_app_cons, Halnum.
Qed.

Lemma sanitize_empty u uuid_hex name :
  cleaned u name = [] ->
  _sanitize_job_name u uuid_hex name = job_prefix ++ take 8 uuid_hex.
Proof.
  intros Hclean. unfold _sanitize_job_name. fold (cleaned u name). by rewrite Hclean.
Qed.

(** The shape of every sanitised name. *)
Lemma sanitized_name_facts u uuid_hex name :
  unicode_ok u ->
  uuid_ok uuid_hex ->
  let r := _sanitize_job_name u uuid_hex name in
  (1 <= length r <= 63)%nat
  /\ in_class_all r
  /\ (exists c rest, r = c :: rest /\ is_letter c = true)
  /\ ((length (lower u name) <= 59)%nat ->
      is_letter (List.last r 0) || is_digit (List.last r 0) = true).
Proof.
  intros Hu [Hlen Hhex] r. subst r.
  destruct (cleaned u name) as [|first l] eqn:Hclean.
  - rewrite (sanitize_empty u uuid_hex name Hclean).
    destruct uuid_hex as [|h0 [|h1 [|h2 [|h3 [|h4 [|h5 [|h6 [|h7 tl]]]]]]]];
      try discriminate Hlen.
    cbn [take]. rewrite take_0.
    rewrite !Forall_cons in Hhex.
    destruct Hhex as (H0 & H1 & H2 & H3 & H4 & H5 & H6 & H7 & _).
    assert (Hall : in_class_all [h0; h1; h2; h3; h4; h5; h6; h7]).
    { repeat constructor; by apply alnum_in_class, is_hex_in_class. }
    repeat split.
    + cbn. lia.
    + cbn. lia.
    + apply Forall_app. split; [apply job_prefix_in_class | exact Hall].
    + by eexists _, _.
    + intros _. change (is_letter h7 || is_digit h7 = true).
      by apply is_hex_in_class.
  - rewrite (sanitize_nonempty u uuid_hex name first l Hu Hclean).
    pose proof (cleaned_in_class u name) as Hall. rewrite Hclean in Hall.
    pose proof (length_cleaned u name) as Hlc. rewrite Hclean in Hlc.
    destruct (strip_ends _ _ _ Hclean) as [Hfirst Hlast].
    assert (Hfc : in_class first = true) by (by inversion Hall).
    assert (Hend : is_letter (List.last (first :: l) 0) || is_digit (List.last (first :: l) 0) = true).
    { apply in_class_not_hyphen; [by apply Forall_last | done]. }
    destruct (is_letter first) eqn:Hletter.
    + repeat split.
      * rewrite length_take. cbn [length]. lia.
      * rewrite length_take. lia.
      * by apply Forall_take.
      * by eexists _, _.
      * intros Hshort. rewrite take_ge; [done |]. cbn [length] in *. lia.
    + repeat split.
      * rewrite length_take. cbn. lia.
      * rewrite length_take. lia.
      * apply Forall_take, Forall_app. split; [apply job_prefix_in_class | done].
      * by eexists _, _.
      * intros Hshort. rewrite take_ge.
        -- by rewrite last_app_cons.
        -- rewrite length_app. cbn [length] in *. cbn. lia.
Qed.

(** C3, as the code has it.  The sanitised name has between 1 and 63
    characters, starts with a lower-case letter and holds only lower-case
    letters, digits and hyphens; when the lower-cased input has at most
    59 characters, so that nothing is cut off, its last character is a
    letter or a digit.  (A name of a single letter is possible.) *)
Theorem sanitized_name_shape u uuid_hex name :
  unicode_ok u ->
  uuid_ok uuid_hex ->
  let r := _sanitize_job_name u uuid_hex name in
  (1 <= length r <= 63)%nat
  /\ in_class_all r
  /\ (exists c rest, r = c :: rest /\ is_letter c = true)
  /\ ((length (lower u name) <= 59)%nat ->
      is_letter (List.last r 0) || is_digit (List.last r 0) = true).
Proof. exact (sanitized_name_facts u uuid_hex name). Qed.

Lemma ascii_tables_ok : unicode_ok ascii_tables.
Proof.
  split.
  - intros s Hs. cbn. induction Hs as [|c s Hc _ IH]; [done |].
    cbn [map]. rewrite IH. f_equal.
    destruct ((65 <=? c) && (c <=? 90)) eqn:Hup; [| done].
    exfalso. revert Hc Hup. unfold in_class, is_letter, is_digit, is_hyphen, hyphen.
    rewrite !orb_true_iff, !andb_true_iff, !N.leb_le, N.eqb_eq. lia.
  - intros c Hc. cbn. destruct ((65 <=? c) && (c <=? 90)) eqn:Hup; [| done].
    exfalso. revert Hc Hup. unfold in_class, is_letter, is_digit, is_hyphen, hyphen.
    rewrite !orb_true_iff, !andb_true_iff, !N.leb_le, N.eqb_eq. lia.
  - intros c Hc. cbn. destruct ((65 <=? c) && (c <=? 90)) eqn:Hup; [| done].
    exfalso. revert Hc Hup. unfold in_class, is_letter, is_digit, is_hyphen, hyphen.
    rewrite !orb_true_iff, !andb_true_iff, !N.leb_le, N.eqb_eq. lia.
Qed.

Lemma sample_uuid_ok : uuid_ok sample_uuid.
Proof. split; [reflexivity | repeat constructor]. Qed.

Lemma sanitized_name_shape_witness :
  unicode_ok ascii_tables
  /\ uuid_ok sample_uuid
  /\ in_class_all (_sanitize_job_name ascii_tables sample_uuid (of_string "My Job!!"%string)).
Proof.
  split; [exact ascii_tables_ok | split; [exact sample_uuid_ok |]].
  exact (proj1 (proj2 (sanitized_name_shape ascii_tables sample_uuid (of_string "My Job!!"%string)
                         ascii_tables_ok sample_uuid_ok))).
Defined.

(** *** Names that a second pass leaves alone *)

Lemma no_double_cons2 c d rest :
  no_double (c :: d :: rest) = negb (is_hyphen c && is_hyphen d) && no_double (d :: rest).
Proof. reflexivity. Qed.

Lemma no_double_app_r a b : no_double (a ++ b) = true -> no_double b = true.
Proof.
  induction a as [|c a IH]; [done |]. intros H. apply IH.
  destruct (a ++ b) as [|d rest] eqn:E; [done |].
  change ((c :: a) ++ b) with (c :: (a ++ b)) in H. rewrite E, no_double_cons2 in H.
  by apply andb_true_iff in H as [_ ?].
Qed.

Lemma no_double_app_l a b : no_double (a ++ b) = true -> no_double a = true.
Proof.
  induction a as [|c a IH]; [done |]. intros H.
  destruct a as [|d a']; [done |].
  change ((c :: d :: a') ++ b) with (c :: d :: (a' ++ b)) in H.
  rewrite no_double_cons2 in *. apply andb_true_iff in H as [H1 H2].
  rewrite H1. apply IH. exact H2.
Qed.

Lemma collapse_hd s : is_hyphen (hd 0 (collapse s)) = is_hyphen (hd 0 s).
Proof.
  induction s as [|c rest IH]; [done |].
  cbn [collapse]. destruct rest as [|d rest']; [done |].
  destruct (is_hyphen c && is_hyphen d) eqn:E; [| done].
  rewrite IH. cbn [hd]. apply andb_true_iff in E as [-> ->]. done.
Qed.

Lemma collapse_no_double s : no_double (collapse s) = true.
Proof.
  induction s as [|c rest IH]; [done |].
  cbn [collapse]. destruct rest as [|d rest']; [done |].
  destruct (is_hyphen c && is_hyphen d) eqn:E; [exact IH |].
  pose proof (collapse_hd (d :: rest')) as Hhd.
  destruct (collapse (d :: rest')) as [|x t] eqn:Ec; [done |].
  rewrite no_double_cons2, IH, andb_true_r. cbn [hd] in Hhd. by rewrite Hhd, E.
Qed.

Lemma collapse_fixed s : no_double s = true -> collapse s = s.
Proof.
  induction s as [|c rest IH]; [done |]. intros H.
  cbn [collapse]. destruct rest as [|d rest']; [done |].
  rewrite no_double_cons2 in H. apply andb_true_iff in H as [H1 H2].
  apply negb_true_iff in H1. rewrite H1. f_equal. by apply IH.
Qed.

Lemma replace_outside_fixed s : in_class_all s -> replace_outside s = s.
Proof.
  induction 1 as [|c s Hc _ IH]; [done |].
  unfold replace_outside in *. cbn [map]. by rewrite Hc, IH.
Qed.

Lemma lstrip_fixed s : is_hyphen (hd 0 s) = false -> lstrip s = s.
Proof. destruct s as [|c s]; [done |]. cbn [hd lstrip]. by intros ->. Qed.

Lemma strip_fixed s :
  is_hyphen (hd 0 s) = false -> is_hyphen (List.last s 0) = false -> strip s = s.
Proof.
  intros Hhd Hlast. unfold strip. rewrite (lstrip_fixed s Hhd).
  rewrite lstrip_fixed; [apply rev_involutive |].
  by rewrite <- last_rev_hd, rev_involutive.
Qed.

(** The stripped text is a segment of the text. *)
Lemma strip_segment s : exists h1 h2, s = h1 ++ strip s ++ h2.
Proof.
  destruct (lstrip_spec s) as (h1 & Hs & _).
  destruct (lstrip_spec (rev (lstrip s))) as (h2 & Hr & _).
  exists h1, (rev h2). unfold strip. rewrite <- rev_app_distr, <- Hr, rev_involutive.
  exact Hs.
Qed.

Lemma cleaned_no_double u name : no_double (cleaned u name) = true.
Proof.
  unfold cleaned.
  destruct (strip_segment (collapse (replace_outside (lower u name)))) as (h1 & h2 & Hseg).
  pose proof (collapse_no_double (replace_outside (lower u name))) as Hnd.
  rewrite Hseg in Hnd. by apply no_double_app_r, no_double_app_l in Hnd.
Qed.

Lemma is_letter_not_hyphen c : is_letter c || is_digit c = true -> is_hyphen c = false.
Proof.
  unfold is_letter, is_digit, is_hyphen, hyphen.
  rewrite orb_true_iff, !andb_true_iff, !N.leb_le, N.eqb_neq. lia.
Qed.

Lemma no_double_job_prefix c l :
  is_hyphen c = false -> no_double (job_prefix ++ c :: l) = no_double (c :: l).
Proof.
  intros Hc. change (job_prefix ++ c :: l) with (106 :: 111 :: 98 :: 45 :: c :: l).
  rewrite !no_double_cons2, Hc. reflexivity.
Qed.

Lemma no_double_all_alnum s :
  Forall (fun c => is_hyphen c = false) s -> no_double s = true.
Proof.
  induction 1 as [|c s Hc Hs IH]; [done |].
  destruct s as [|d s']; [done |]. by rewrite no_double_cons2, Hc, IH.
Qed.

Lemma sanitized_no_double u uuid_hex name :
  unicode_ok u -> uuid_ok uuid_hex ->
  no_double (_sanitize_job_name u uuid_hex name) = true.
Proof.
  intros Hu [Hlen Hhex].
  destruct (cleaned u name) as [|first l] eqn:Hclean.
  - rewrite (sanitize_empty u uuid_hex name Hclean).
    destruct (take 8 uuid_hex) as [|c t] eqn:Et; [done |].
    assert (Hall : Forall (fun c => is_hyphen c = false) (c :: t)).
    { rewrite <- Et. apply Forall_take. eapply Forall_impl; [exact Hhex |].
      intros x Hx. by apply is_letter_not_hyphen, is_hex_in_class. }
    rewrite no_double_job_prefix; [by apply no_double_all_alnum | by inversion Hall].
  - rewrite (sanitize_nonempty u uuid_hex name first l Hu Hclean).
    pose proof (cleaned_no_double u name) as Hnd. rewrite Hclean in Hnd.
    destruct (strip_ends _ _ _ Hclean) as [Hfirst _].
    set (s := if is_letter first then first :: l else job_prefix ++ first :: l).
    assert (Hs : no_double s = true).
    { subst s. destruct (is_letter first); [done | by rewrite no_double_job_prefix]. }
    rewrite <- (take_drop 63 s) in Hs. by apply no_double_app_l in Hs.
Qed.

(** A name of the sanitised shape is returned as it is. *)
Lemma sanitize_fixed u uuid_hex c l :
  unicode_ok u ->
  in_class_all (c :: l) ->
  no_double (c :: l) = true ->
  is_letter c = true ->
  is_letter (List.last (c :: l) 0) || is_digit (List.last (c :: l) 0) = true ->
  (length (c :: l) <= 63)%nat ->
  _sanitize_job_name u uuid_hex (c :: l) = c :: l.
Proof.
  intros Hu Hall Hnd Hc Hlast Hlen.
  assert (Hclean : cleaned u (c :: l) = c :: l).
  { unfold cleaned. rewrite (lower_in_class u Hu _ Hall), (replace_outside_fixed _ Hall).
    rewrite (collapse_fixed _ Hnd). apply strip_fixed.
    - cbn [hd]. apply is_letter_not_hyphen. by rewrite Hc.
    - by apply is_letter_not_hyphen. }
  rewrite (sanitize_nonempty u uuid_hex (c :: l) c l Hu Hclean), Hc.
  by apply take_ge.
Qed.

(** A second pass changes nothing whenever the first pass ends with a
    letter or a digit, which is so whenever nothing was cut off. *)
Lemma sanitize_idempotent_unless_cut u uuid_hex uuid_hex' name :
  unicode_ok u -> uuid_ok uuid_hex ->
  let once := _sanitize_job_name u uuid_hex name in
  is_letter (List.last once 0) || is_digit (List.last once 0) = true ->
  _sanitize_job_name u uuid_hex' once = once.
Proof.
  intros Hu Hhex once Hlast.
  destruct (sanitized_name_facts u uuid_hex name Hu Hhex) as (Hlen & Hall & (c & l & Hr & Hc) & _).
  pose proof (sanitized_no_double u uuid_hex name Hu Hhex) as Hnd.
  fold once in Hlen, Hall, Hr, Hnd. rewrite Hr in *.
  apply sanitize_fixed; try done. lia.
Qed.

(** C3 as the spec states it fails: the one-letter name "a" is returned
    unchanged, and the grammar [^[a-z][a-z0-9-]*[a-z0-9]$] asks for two
    characters at least. *)
Lemma single_letter_name_outside_grammar :
  _sanitize_job_name ascii_tables sample_uuid (of_string "a"%string) = of_string "a"%string
  /\ matches_job_name_grammar
       (_sanitize_job_name ascii_tables sample_uuid (of_string "a"%string)) = false.
Proof. split; reflexivity. Qed.

(** C2 (the code departs from it).  The 64-character name made of 62
    letters [a], a hyphen and a [b] is cut after the hyphen; sanitising
    the result again strips that hyphen, so the second pass differs from
    the first. *)
Theorem sanitize_twice_differs :
  let name := repeat 97 62 ++ of_string "-b"%string in
  let once := _sanitize_job_name ascii_tables sample_uuid name in
  once = repeat 97 62 ++ [hyphen]
  /\ _sanitize_job_name ascii_tables sample_uuid once = repeat 97 62
  /\ _sanitize_job_name ascii_tables sample_uuid once <> once.
Proof.
  cbv zeta. split; [vm_compute; reflexivity | split; [vm_compute; reflexivity |]].
  vm_compute. discriminate.
Qed.

End SanitizerFacts.

(** ** More on the parameter validator *)

Module ValidatorMore.
Import Py Validator PyFacts ValidatorFacts.
Local Open Scope list_scope.

Lemma issubset_difference (a b : list atom) :
  DataprocValidator.issubset a b = true <-> set_difference a b = [].
Proof.
  unfold DataprocValidator.issubset. rewrite forallb_forall. split.
  - intros Hall. destruct (set_difference a b) as [|x l] eqn:E; [done |].
    assert (Hx : x ∈ set_difference a b) by (rewrite E; apply list_elem_of_here).
    apply elem_of_set_difference in Hx as [Hin Hnot].
    exfalso. apply Hnot, atom_in_elem_of, Hall. by apply list_elem_of_In.
  - intros Hempty x Hx. apply list_elem_of_In in Hx.
    destruct (atom_in x b) eqn:Hb; [done |]. exfalso.
    assert (Hd : x ∈ set_difference a b).
    { apply elem_of_set_difference. split; [done |].
      rewrite <- atom_in_elem_of. congruence. }
    rewrite Hempty in Hd. by apply elem_of_nil in Hd.
Qed.

(** X1. The Dataflow validator and its Dataproc sibling give the same
    [validation_result] on every pair of arguments, well-typed or not:
    they differ in their comments only. *)
Theorem validators_agree (template_definition user_inputs : json) :
  DataprocValidator.validation_result
    (DataprocValidator.validate_input_params template_definition user_inputs)
  = validation_result (validate_input_params template_definition user_inputs).
Proof.
  unfold DataprocValidator.validate_input_params, validate_input_params.
  destruct (dict_get template_definition "required" (JList [])) as [e | required_params];
    [reflexivity |].
  destruct (dict_get template_definition "optional" (JList [])) as [e | optional_params];
    [reflexivity |].
  unfold mbind, result_bind, bind. cbn beta iota.
  destruct (py_add required_params optional_params) as [e | all_defined_params];
    [reflexivity |].
  destruct (dict_keys user_inputs) as [e | keys]; [reflexivity |].
  cbn beta iota zeta.
  destruct (py_set all_defined_params) as [e | defined]; [reflexivity |].
  case_bool_decide; [reflexivity |].
  destruct (py_set required_params) as [e | required]; [reflexivity |].
  destruct (DataprocValidator.issubset required (set_of_atoms (map AStr keys) [])) eqn:Hsub.
  - apply issubset_difference in Hsub. rewrite Hsub. by case_bool_decide.
  - case_bool_decide as Hd; [reflexivity |].
    exfalso. apply issubset_difference in Hd. congruence.
Qed.



(** X3. A template definition with neither a 'required' nor an 'optional'
    entry accepts the empty dict of inputs and nothing else: any key at
    all is reported as invalid. *)
Theorem empty_template_accepts_only_empty_inputs td (ui : list (string * json)) :
  assoc "required" td = None ->
  assoc "optional" td = None ->
  (validation_result (validate_input_params (JObj td) (JObj ui)) = "success" <-> ui = [])
  /\ (ui <> [] ->
      exists invalid,
        comment (validate_input_params (JObj td) (JObj ui)) = InvalidParams invalid (JList [])
        /\ forall k, AStr k ∈ invalid <-> k ∈ map fst ui).
Proof.
  intros Hreq Hopt.
  rewrite (validate_input_params_typed td ui [] []); [| by right | by right].
  cbn zeta.
  destruct ui as [|[k v] ui].
  - split; [done |]. by intros [].
  - case_bool_decide as Hinv.
    + split; [split; discriminate |]. intros _. eexists. split; [reflexivity |].
      intros k'. rewrite (difference_members (map fst ((k, v) :: ui)) ([] ++ []) (AStr k')).
      split.
      * by intros (k0 & [= <-] & Hin & _).
      * intros Hin. exists k'. split; [done | split; [done | apply not_elem_of_nil]].
    + exfalso. revert Hinv. apply invalid_nonempty_iff. exists k.
      split; [apply list_elem_of_here | apply not_elem_of_nil].
Qed.

Lemma empty_template_accepts_only_empty_inputs_witness :
  assoc "required" [] = None
  /\ assoc "optional" [] = None
  /\ (validation_result (validate_input_params (JObj []) (JObj [("bogus", JStr "x")]))
      = "success" <-> [("bogus", JStr "x")] = []).
Proof.
  split; [reflexivity | split; [reflexivity |]].
  exact (proj1 (empty_template_accepts_only_empty_inputs [] [("bogus", JStr "x")]
                  eq_refl eq_refl)).
Defined.

End ValidatorMore.

(** ** More on job submission *)

Module SubmitMore.
Import Py Validator Submit PyFacts SubmitFacts SubmitSamples.

Lemma truthy_string (s : string) : truthy (JStr s) = true <-> s <> EmptyString.
Proof. cbn. by rewrite negb_true_iff, String.eqb_neq. Qed.

Lemma assoc_none_existsb k (items : list (string * json)) :
  assoc k items = None -> existsb (fun kv => String.eqb (fst kv) k) items = false.
Proof.
  induction items as [|[k' v] items IH]; [done |]. cbn.
  rewrite (String.eqb_sym k' k). destruct (String.eqb k k'); [discriminate | exact IH].
Qed.

Lemma assoc_some_existsb k (items : list (string * json)) v :
  assoc k items = Some v -> existsb (fun kv => String.eqb (fst kv) k) items = true.
Proof.
  induction items as [|[k' v'] items IH]; [done |]. cbn.
  rewrite (String.eqb_sym k' k). destruct (String.eqb k k'); [done | exact IH].
Qed.

(** X4. With a custom GCS path the parameters are not validated: once
    both texts decode to dicts the command for that path is run whatever
    the template definition declares, and the result is never a validation
    failure. *)
Theorem custom_path_skips_validation env job_name input_params template_params gcp_project
    region gcs_staging_location custom_gcs_path user_inputs descriptor :
  custom_gcs_path <> EmptyString ->
  json_loads env input_params = inr (JObj user_inputs) ->
  json_loads env template_params = inr (JObj descriptor) ->
  let cmd :=
    if is_flex custom_gcs_path descriptor
    then flex_cmd job_name gcp_project region custom_gcs_path
           (parameters_str env user_inputs)
    else classic_cmd job_name gcp_project region custom_gcs_path
           (parameters_str env user_inputs) gcs_staging_location in
  let r := submit_dataflow_template env job_name input_params template_params gcp_project
             region gcs_staging_location custom_gcs_path in
  r = match subprocess_run env cmd with
      | inr cmd_run_status =>
          {| status := "success"; job_stdout := Some (stdout cmd_run_status);
             submit_note := JobSubmitted |}
      | inl err => failed (Unexpected (str_error env err))
      end
  /\ (forall c, submit_note r <> ValidationError c)
  /\ submit_note r <> NoParamsKey.
Proof.
  intros Hcustom Hin Htp cmd r.
  apply truthy_string in Hcustom.
  assert (Hr : r = match subprocess_run env cmd with
                   | inr cmd_run_status =>
                       {| status := "success"; job_stdout := Some (stdout cmd_run_status);
                          submit_note := JobSubmitted |}
                   | inl err => failed (Unexpected (str_error env err))
                   end).
  { subst r cmd.
    apply (submit_runs_cmd env job_name input_params template_params gcp_project region
             gcs_staging_location custom_gcs_path user_inputs descriptor custom_gcs_path
             Hin Htp).
    - by rewrite Hcustom.
    - by apply truthy_string.
    - unfold check_params. by rewrite Hcustom. }
  split; [exact Hr |]. rewrite Hr.
  destruct (subprocess_run env cmd); cbn; split; try discriminate; intros c; discriminate.
Qed.

Lemma custom_path_skips_validation_witness :
  let r := submit_dataflow_template (world 0 "ok" "") "job1" "{}" template_text "p" "r"
             "gs://b/staging" "gs://b/custom/Foo" in
  "gs://b/custom/Foo" <> EmptyString
  /\ json_loads (world 0 "ok" "") "{}" = inr (JObj [])
  /\ submit_note r <> NoParamsKey.
Proof.
  intros r.
  assert (H1 : "gs://b/custom/Foo" <> EmptyString) by discriminate.
  assert (H2 : json_loads (world 0 "ok" "") "{}" = inr (JObj [])) by reflexivity.
  assert (H3 : json_loads (world 0 "ok" "") template_text = inr template_value) by reflexivity.
  split; [exact H1 | split; [exact H2 |]].
  exact (proj2 (proj2 (custom_path_skips_validation (world 0 "ok" "") "job1" "{}"
                          template_text "p" "r" "gs://b/staging" "gs://b/custom/Foo"
                          [] _ H1 H2 H3))).
Defined.

(** X5. Without a custom path, a template definition whose
    'template_gcs_path' is absent, null or empty stops the call before
    anything is validated or run: the result is the "key was not found"
    failure, whatever the inputs decode to. *)
Theorem missing_template_path env job_name input_params template_params gcp_project
    region gcs_staging_location user_inputs descriptor :
  json_loads env input_params = inr user_inputs ->
  json_loads env template_params = inr (JObj descriptor) ->
  truthy (default JNull (assoc "template_gcs_path" descriptor)) = false ->
  submit_dataflow_template env job_name input_params template_params gcp_project
    region gcs_staging_location EmptyString
  = failed NoTemplatePath.
Proof.
  intros Hin Htp Hpath. unfold submit_dataflow_template.
  rewrite Hin, Htp. run_monad. unfold dict_get. run_monad.
  change (truthy (JStr EmptyString)) with false. cbn beta iota. by rewrite Hpath.
Qed.

Lemma missing_template_path_witness :
  json_loads (world 0 "ok" "") inputs_text = inr inputs_value
  /\ submit_dataflow_template (world 0 "ok" "") "job1" inputs_text no_path_text "p" "r"
       "gs://b/staging" EmptyString
     = failed NoTemplatePath.
Proof.
  assert (H1 : json_loads (world 0 "ok" "") inputs_text = inr inputs_value) by reflexivity.
  split; [exact H1 |].
  exact (missing_template_path (world 0 "ok" "") "job1" inputs_text no_path_text "p" "r"
           "gs://b/staging" inputs_value [("params", JObj [])] H1 eq_refl eq_refl).
Defined.

(** The steps before the parameter check, for a template definition that
    is a dict with a usable path and no custom path. *)
Lemma submit_to_check env job_name input_params template_params gcp_project
    region gcs_staging_location user_inputs descriptor path :
  json_loads env input_params = inr user_inputs ->
  json_loads env template_params = inr (JObj descriptor) ->
  assoc "template_gcs_path" descriptor = Some path ->
  truthy path = true ->
  submit_dataflow_template env job_name input_params template_params gcp_project
    region gcs_staging_location EmptyString
  = try_except
      (early ← lift (check_params EmptyString user_inputs (JObj descriptor));
       match early with
       | Some r => mret r
       | None =>
           cmd ← lift (run_cmd env job_name gcp_project region gcs_staging_location
                         user_inputs (JObj descriptor) path);
           cmd_run_status ← subprocess_run env cmd;
           mret {| status := "success";
                   job_stdout := Some (stdout cmd_run_status);
                   submit_note := JobSubmitted |}
       end)
      (fun err => failed (Unexpected (str_error env err))).
Proof.
  intros Hin Htp Hpath Htruthy. unfold submit_dataflow_template.
  rewrite Hin, Htp. run_monad. unfold dict_get. run_monad.
  change (truthy (JStr EmptyString)) with false. cbn beta iota.
  rewrite Hpath. cbn [default from_option id]. by rewrite Htruthy.
Qed.

(** X6. Without a custom path, a template definition that has a path but
    no 'params' entry is refused with the "missing the params key"
    failure; nothing is validated or run. *)
Theorem missing_params_key env job_name input_params template_params gcp_project
    region gcs_staging_location user_inputs descriptor path :
  json_loads env input_params = inr user_inputs ->
  json_loads env template_params = inr (JObj descriptor) ->
  assoc "template_gcs_path" descriptor = Some path ->
  truthy path = true ->
  assoc "params" descriptor = None ->
  submit_dataflow_template env job_name input_params template_params gcp_project
    region gcs_staging_location EmptyString
  = failed NoParamsKey.
Proof.
  intros Hin Htp Hpath Htruthy Hparams.
  rewrite (submit_to_check env job_name input_params template_params gcp_project region
             gcs_staging_location user_inputs descriptor path Hin Htp Hpath Htruthy).
  unfold check_params, py_in. run_monad.
  change (truthy (JStr EmptyString)) with false. cbn [negb]. cbn beta iota.
  by rewrite (assoc_none_existsb _ _ Hparams).
Qed.

Lemma missing_params_key_witness :
  json_loads (world 0 "ok" "") inputs_text = inr inputs_value
  /\ submit_dataflow_template (world 0 "ok" "") "job1" inputs_text no_params_text "p" "r"
       "gs://b/staging" EmptyString
     = failed NoParamsKey.
Proof.
  assert (H1 : json_loads (world 0 "ok" "") inputs_text = inr inputs_value) by reflexivity.
  split; [exact H1 |].
  exact (missing_params_key (world 0 "ok" "") "job1" inputs_text no_params_text "p" "r"
           "gs://b/staging" inputs_value
           [("template_gcs_path", JStr "gs://b/templates/Word_Count")]
           (JStr "gs://b/templates/Word_Count") H1 eq_refl eq_refl eq_refl eq_refl).
Defined.

Lemma check_params_validates (user_inputs : json) descriptor params :
  assoc "params" descriptor = Some params ->
  check_params EmptyString user_inputs (JObj descriptor)
  = inr (if negb (String.eqb (validation_result (validate_input_params params user_inputs))
                    "success")
         then Some (failed (ValidationError
                              (comment (validate_input_params params user_inputs))))
         else None).
Proof.
  intros Hparams. unfold check_params, py_in, py_getitem. run_monad.
  change (truthy (JStr EmptyString)) with false. cbn [negb]. cbn beta iota.
  rewrite (assoc_some_existsb _ _ _ Hparams), Hparams. cbn [negb]. run_monad.
  by destruct (negb _).
Qed.

(** X7. Without a custom path, inputs that do not pass validation are
    never submitted: the result is the validation failure, carrying the
    validator's comment, and the shell is not consulted. *)
Theorem invalid_inputs_not_submitted env job_name input_params template_params gcp_project
    region gcs_staging_location user_inputs descriptor path params :
  json_loads env input_params = inr user_inputs ->
  json_loads env template_params = inr (JObj descriptor) ->
  assoc "template_gcs_path" descriptor = Some path ->
  truthy path = true ->
  assoc "params" descriptor = Some params ->
  validation_result (validate_input_params params user_inputs) <> "success" ->
  submit_dataflow_template env job_name input_params template_params gcp_project
    region gcs_staging_location EmptyString
  = failed (ValidationError (comment (validate_input_params params user_inputs))).
Proof.
  intros Hin Htp Hpath Htruthy Hparams Hbad.
  rewrite (submit_to_check env job_name input_params template_params gcp_project region
             gcs_staging_location user_inputs descriptor path Hin Htp Hpath Htruthy).
  rewrite (check_params_validates user_inputs descriptor params Hparams).
  apply String.eqb_neq in Hbad. rewrite Hbad. reflexivity.
Qed.

Lemma invalid_inputs_not_submitted_witness :
  json_loads (world 0 "ok" "") "{}" = inr (JObj [])
  /\ validation_result
       (validate_input_params (JObj [("required", JList [JStr "inputFile"])]) (JObj []))
     <> "success"
  /\ status (submit_dataflow_template (world 0 "ok" "") "job1" "{}" template_text "p" "r"
               "gs://b/staging" EmptyString) = "failed".
Proof.
  assert (H1 : json_loads (world 0 "ok" "") "{}" = inr (JObj [])) by reflexivity.
  assert (H2 : validation_result
                 (validate_input_params (JObj [("required", JList [JStr "inputFile"])])
                    (JObj [])) <> "success") by discriminate.
  split; [exact H1 | split; [exact H2 |]].
  rewrite (invalid_inputs_not_submitted (world 0 "ok" "") "job1" "{}" template_text "p" "r"
             "gs://b/staging" (JObj [])
             [("template_gcs_path", JStr "gs://b/templates/Word_Count");
              ("params", JObj [("required", JList [JStr "inputFile"])])]
             (JStr "gs://b/templates/Word_Count")
             (JObj [("required", JList [JStr "inputFile"])])
             H1 eq_refl eq_refl eq_refl eq_refl H2).
  reflexivity.
Defined.

(** X8. Without a custom path, inputs that pass validation are submitted
    with the command built for the template's own path, and when that
    command exits with status 0 the result is a success carrying the
    command's standard output. *)
Theorem valid_inputs_submitted env job_name input_params template_params gcp_project
    region gcs_staging_location user_inputs descriptor path params p :
  json_loads env input_params = inr (JObj user_inputs) ->
  json_loads env template_params = inr (JObj descriptor) ->
  assoc "template_gcs_path" descriptor = Some (JStr path) ->
  path <> EmptyString ->
  assoc "params" descriptor = Some params ->
  validation_result (validate_input_params params (JObj user_inputs)) = "success" ->
  let cmd :=
    if is_flex path descriptor
    then flex_cmd job_name gcp_project region path (parameters_str env user_inputs)
    else classic_cmd job_name gcp_project region path (parameters_str env user_inputs)
           gcs_staging_location in
  shell env cmd = inr p ->
  returncode p = 0 ->
  submit_dataflow_template env job_name input_params template_params gcp_project
    region gcs_staging_location EmptyString
  = {| status := "success"; job_stdout := Some (stdout p); submit_note := JobSubmitted |}.
Proof.
  intros Hin Htp Hpath Hne Hparams Hok cmd Hshell Hcode.
  rewrite (submit_runs_cmd env job_name input_params template_params gcp_project region
             gcs_staging_location EmptyString user_inputs descriptor path Hin Htp).
  - fold cmd. unfold subprocess_run. rewrite Hshell. run_monad. by rewrite Hcode.
  - change (truthy (JStr EmptyString)) with false. cbn beta iota.
    unfold dict_get. run_monad. by rewrite Hpath.
  - exact Hne.
  - rewrite (check_params_validates (JObj user_inputs) descriptor params Hparams).
    by rewrite Hok.
Qed.

Lemma valid_inputs_submitted_witness :
  json_loads (world 0 "job started" "") inputs_text = inr inputs_value
  /\ validation_result
       (validate_input_params (JObj [("required", JList [JStr "inputFile"])]) inputs_value)
     = "success"
  /\ submit_dataflow_template (world 0 "job started" "") "job1" inputs_text template_text
       "p" "r" "gs://b/staging" EmptyString
     = {| status := "success"; job_stdout := Some "job started"; submit_note := JobSubmitted |}.
Proof.
  assert (H1 : json_loads (world 0 "job started" "") inputs_text = inr inputs_value)
    by reflexivity.
  assert (H2 : validation_result
                 (validate_input_params (JObj [("required", JList [JStr "inputFile"])])
                    inputs_value) = "success") by reflexivity.
  split; [exact H1 | split; [exact H2 |]].
  exact (valid_inputs_submitted (world 0 "job started" "") "job1" inputs_text template_text
           "p" "r" "gs://b/staging" [("inputFile", JStr "gs://b/in.txt")]
           [("template_gcs_path", JStr "gs://b/templates/Word_Count");
            ("params", JObj [("required", JList [JStr "inputFile"])])]
           "gs://b/templates/Word_Count"
           (JObj [("required", JList [JStr "inputFile"])])
           {| returncode := 0; stdout := "job started"; stderr := EmptyString |}
           H1 eq_refl eq_refl ltac:(discriminate) eq_refl H2 eq_refl eq_refl).
Defined.

(** X9. A text that is not JSON is reported, not raised: when the decoder
    rejects [input_params], or accepts it and rejects [template_params],
    the result is a failure whose comment carries the decoder's message,
    and nothing is run. *)
Theorem malformed_json_reported env job_name input_params template_params gcp_project
    region gcs_staging_location custom_gcs_path e :
  json_loads env input_params = inl e
  \/ (exists user_inputs, json_loads env input_params = inr user_inputs
                          /\ json_loads env template_params = inl e) ->
  submit_dataflow_template env job_name input_params template_params gcp_project
    region gcs_staging_location custom_gcs_path
  = failed (Unexpected (str_exn e)).
Proof.
  unfold submit_dataflow_template.
  intros [Hin | (user_inputs & Hin & Htp)]; rewrite Hin; [reflexivity |].
  run_monad. by rewrite Htp.
Qed.

Lemma malformed_json_reported_witness :
  (json_loads (world 0 "ok" "") "not json"
   = inl (JSONDecodeError "Expecting value: line 1 column 1 (char 0)")
   \/ exists user_inputs, json_loads (world 0 "ok" "") "not json" = inr user_inputs
        /\ json_loads (world 0 "ok" "") "{}"
           = inl (JSONDecodeError "Expecting value: line 1 column 1 (char 0)"))
  /\ submit_dataflow_template (world 0 "ok" "") "job1" "not json" "{}" "p" "r"
       "gs://b/staging" EmptyString
     = failed (Unexpected "Expecting value: line 1 column 1 (char 0)").
Proof.
  assert (H : json_loads (world 0 "ok" "") "not json"
              = inl (JSONDecodeError "Expecting value: line 1 column 1 (char 0)")
              \/ exists user_inputs, json_loads (world 0 "ok" "") "not json" = inr user_inputs
                   /\ json_loads (world 0 "ok" "") "{}"
                      = inl (JSONDecodeError "Expecting value: line 1 column 1 (char 0)"))
    by (left; reflexivity).
  split; [exact H |].
  exact (malformed_json_reported (world 0 "ok" "") "job1" "not json" "{}" "p" "r"
           "gs://b/staging" EmptyString _ H).
Defined.

Lemma concat_cons2 sep (x y : string) l :
  String.concat sep (x :: y :: l) = x ++ sep ++ String.concat sep (y :: l).
Proof. reflexivity. Qed.

(** X10. The separator is not escaped: a text value that itself contains
    [###] followed by [key=value] yields the same parameter string as two
    separate parameters, so the command line cannot tell them apart. *)
Theorem delimiter_not_escaped env (k v k' v' : string) (rest : list (string * json)) :
  parameters_str env ((k, JStr (v ++ delemeter ++ k' ++ "=" ++ v')) :: rest)
  = parameters_str env ((k, JStr v) :: (k', JStr v') :: rest).
Proof.
  unfold parameters_str. f_equal. f_equal. f_equal. cbn [map fst snd py_str].
  rewrite concat_cons2.
  destruct (map (fun kv : string * json => fst kv ++ "=" ++ py_str env (snd kv)) rest)
    as [|y l].
  - cbn [String.concat]. by rewrite !append_assoc.
  - rewrite !concat_cons2. by rewrite !append_assoc.
Qed.

(** C9. When [template_params] decodes to a non-empty list whose first
    element is a dict, every later step reads that element and nothing
    else of the list: the path is its 'template_gcs_path' (unless a custom
    path is given), the parameters are validated against its 'params', and
    the Flex test reads its 'type'.  The result is given here by the
    fields of the first element alone. *)
Theorem submit_reads_first_of_list env job_name input_params template_params gcp_project
    region gcs_staging_location custom_gcs_path user_inputs descriptor others :
  json_loads env input_params = inr (JObj user_inputs) ->
  json_loads env template_params = inr (JList (JObj descriptor :: others)) ->
  let r := submit_dataflow_template env job_name input_params template_params gcp_project
             region gcs_staging_location custom_gcs_path in
  let quote := String (ascii_of_nat 34) EmptyString in
  let parameters :=
    "^###^" ++ String.concat "###"
                 (map (fun kv => fst kv ++ "=" ++ py_str env (snd kv)) user_inputs) in
  let command path :=
    if contains "/flex/" path || eq_str (default JNull (assoc "type" descriptor)) "FLEX"
    then "gcloud dataflow flex-template run " ++ job_name
         ++ " --project=" ++ gcp_project ++ " --region=" ++ region
         ++ " --template-file-gcs-location=" ++ path
         ++ " --parameters " ++ quote ++ parameters ++ quote
         ++ " --additional-user-labels=source=plumber"
    else "gcloud dataflow jobs run " ++ job_name
         ++ " --project=" ++ gcp_project ++ " --region=" ++ region
         ++ " --gcs-location=" ++ path
         ++ " --parameters " ++ quote ++ parameters ++ quote
         ++ " --staging-location=" ++ gcs_staging_location
         ++ " --additional-user-labels=source=plumber" in
  let run path :=
    match subprocess_run env (command path) with
    | inr cmd_run_status =>
        {| status := "success"; job_stdout := Some (stdout cmd_run_status);
           submit_note := JobSubmitted |}
    | inl err => failed (Unexpected (str_error env err))
    end in
  if truthy (JStr custom_gcs_path) then r = run custom_gcs_path
  else
    let path_value := default JNull (assoc "template_gcs_path" descriptor) in
    if negb (truthy path_value) then r = failed NoTemplatePath
    else
      match assoc "params" descriptor with
      | None => r = failed NoParamsKey
      | Some params =>
          let v := validate_input_params params (JObj user_inputs) in
          if String.eqb (validation_result v) "success"
          then forall path, path_value = JStr path -> r = run path
          else r = failed (ValidationError (comment v))
      end.
Proof.
  intros Hin Htp. cbv zeta. unfold submit_dataflow_template.
  rewrite Hin, Htp. run_monad.
  destruct (truthy (JStr custom_gcs_path)) eqn:Hcustom.
  - cbn beta iota. rewrite Hcustom. cbn [negb].
    unfold check_params. rewrite Hcustom. cbn [negb]. run_monad.
    rewrite run_cmd_flex_or_shape. unfold try_except.
    change (if is_flex custom_gcs_path descriptor
            then flex_cmd job_name gcp_project region custom_gcs_path
                   (parameters_str env user_inputs)
            else classic_cmd job_name gcp_project region custom_gcs_path
                   (parameters_str env user_inputs) gcs_staging_location)
      with (if contains "/flex/" custom_gcs_path
               || eq_str (default JNull (assoc "type" descriptor)) "FLEX"
            then flex_cmd job_name gcp_project region custom_gcs_path
                   (parameters_str env user_inputs)
            else classic_cmd job_name gcp_project region custom_gcs_path
                   (parameters_str env user_inputs) gcs_staging_location).
    destruct (contains "/flex/" custom_gcs_path
              || eq_str (default JNull (assoc "type" descriptor)) "FLEX");
      by destruct (subprocess_run env _).
  - assert (custom_gcs_path = EmptyString) as ->.
    { cbn in Hcustom. apply negb_false_iff in Hcustom. by apply String.eqb_eq. }
    unfold dict_get. run_monad.
    destruct (truthy (default JNull (assoc "template_gcs_path" descriptor))) eqn:Hpath;
      cbn [negb]; [| reflexivity].
    destruct (assoc "params" descriptor) as [params |] eqn:Hparams.
    + rewrite (check_params_validates (JObj user_inputs) descriptor params Hparams).
      destruct (String.eqb (validation_result (validate_input_params params (JObj user_inputs)))
                  "success"); cbn [negb]; [| reflexivity].
      intros path Hpv. rewrite Hpv. rewrite run_cmd_flex_or_shape. unfold try_except.
      change (is_flex path descriptor)
        with (contains "/flex/" path
              || eq_str (default JNull (assoc "type" descriptor)) "FLEX").
      destruct (contains "/flex/" path
                || eq_str (default JNull (assoc "type" descriptor)) "FLEX");
        by destruct (subprocess_run env _).
    + unfold check_params, py_in. run_monad.
      change (truthy (JStr EmptyString)) with false. cbn [negb]. cbn beta iota.
      by rewrite (assoc_none_existsb _ _ Hparams).
Qed.

Lemma submit_reads_first_of_list_witness :
  let env := SubmitListSamples.list_world 0 "job started" "" in
  json_loads env inputs_text = inr inputs_value
  /\ json_loads env SubmitListSamples.wrapped_text = inr (JList [template_value; JInt 7])
  /\ submit_dataflow_template env "job1" inputs_text SubmitListSamples.wrapped_text "p" "r"
       "gs://b/staging" EmptyString
     = {| status := "success"; job_stdout := Some "job started";
          submit_note := JobSubmitted |}.
Proof.
  intros env.
  assert (H1 : json_loads env inputs_text = inr inputs_value) by reflexivity.
  assert (H2 : json_loads env SubmitListSamples.wrapped_text
               = inr (JList [template_value; JInt 7])) by reflexivity.
  split; [exact H1 | split; [exact H2 |]].
  exact (submit_reads_first_of_list env "job1" inputs_text SubmitListSamples.wrapped_text
           "p" "r" "gs://b/staging" EmptyString
           [("inputFile", JStr "gs://b/in.txt")]
           [("template_gcs_path", JStr "gs://b/templates/Word_Count");
            ("params", JObj [("required", JList [JStr "inputFile"])])]
           [JInt 7] H1 H2 "gs://b/templates/Word_Count" eq_refl).
Defined.

End SubmitMore.

(** ** The log tools *)

Module LogToolsFacts.
Import Py Logs PyFacts LogsFacts LogTools.
Local Open Scope list_scope.

(** What the loop returns, for a count below ten: with enough entries to
    reach ten it stops there and a later failure is never met; otherwise
    it consumes them all and then meets the failure, if there is one. *)
Lemma pull_spec it fail log_count collected :
  log_count < 10 ->
  pull it fail log_count collected
  = if 10 - log_count <=? Z.of_nat (length it)
    then inr (10, collected ++ numbered_from log_count (take (Z.to_nat (10 - log_count)) it))
    else match fail with
         | Some e => inl e
         | None => inr (log_count + Z.of_nat (length it),
                        collected ++ numbered_from log_count it)
         end.
Proof.
  revert log_count collected.
  induction it as [|entry rest IH]; intros log_count collected Hlt.
  - cbn [pull length]. destruct (10 - log_count <=? Z.of_nat 0) eqn:E.
    + apply Z.leb_le in E. lia.
    + destruct fail; [done |]. cbn [numbered_from]. unfold mret, result_ret, ret.
      by rewrite Z.add_0_r, app_nil_r.
  - cbn [pull]. destruct (10 <=? log_count + 1) eqn:Hten.
    + apply Z.leb_le in Hten. assert (log_count = 9) as -> by lia.
      replace (10 - 9 <=? Z.of_nat (length (entry :: rest))) with true
        by (symmetry; apply Z.leb_le; cbn [length]; lia).
      change (Z.to_nat (10 - 9)) with 1%nat. cbn [take numbered_from].
      by rewrite take_0.
    + apply Z.leb_gt in Hten. rewrite IH by lia.
      replace (10 - (log_count + 1) <=? Z.of_nat (length rest))
        with (10 - log_count <=? Z.of_nat (length (entry :: rest))).
      2:{ cbn [length]. destruct (10 - log_count <=? Z.of_nat (S (length rest))) eqn:E1;
          destruct (10 - (log_count + 1) <=? Z.of_nat (length rest)) eqn:E2; try done;
          rewrite ?Z.leb_le, ?Z.leb_gt in *; lia. }
      destruct (10 - log_count <=? Z.of_nat (length (entry :: rest))).
      * replace (Z.to_nat (10 - log_count)) with (S (Z.to_nat (10 - (log_count + 1)))) by lia.
        cbn [take numbered_from]. by rewrite <- app_assoc.
      * destruct fail; [done |]. cbn [length numbered_from].
        rewrite <- app_assoc. cbn [app]. do 2 f_equal. lia.
Qed.

Lemma numbered_from_length n l : length (numbered_from n l) = length l.
Proof. revert n. induction l as [|e l IH]; intros n; cbn; [done | by rewrite IH]. Qed.

(** X11. Whatever limit the caller gives, the Dataproc and resource-based
    log tools collect ten entries at most: the loop's own bound is the
    constant 10, so a larger limit has no effect. *)
Theorem never_more_than_ten_entries env project_id resource_name query_str label
    severity resource (_limit : Z) :
  (length (get_dataproc_logs env project_id resource_name query_str label _limit) <= 10)%nat
  /\ match resource_based_entries env project_id severity resource _limit with
     | inr (_, collected_logs) => (length collected_logs <= 10)%nat
     | inl _ => True
     end.
Proof.
  split.
  - unfold get_dataproc_logs, try_except.
    destruct (new_client env project_id); [cbn; lia |].
    unfold mbind, result_bind, bind, mret, result_ret, ret.
    destruct (list_entries env _) as [e | it]; [cbn; lia |].
    rewrite pull_spec by lia.
    destruct (10 - 0 <=? Z.of_nat (length (entries it))) eqn:E.
    + cbn [snd app]. rewrite numbered_from_length, length_take. lia.
    + apply Z.leb_gt in E. destruct (failure it); cbn [snd app length]; [lia |].
      rewrite numbered_from_length. lia.
  - unfold resource_based_entries, mbind, result_bind, bind.
    destruct (list_entries env _) as [e | it]; [done |].
    rewrite pull_spec by lia.
    destruct (10 - 0 <=? Z.of_nat (length (entries it))) eqn:E.
    + cbn [app]. rewrite numbered_from_length, length_take. lia.
    + apply Z.leb_gt in E. destruct (failure it); [done |].
      cbn [app]. rewrite numbered_from_length. lia.
Qed.

(** X12. When the client can be built and the iterator yields its entries
    without failing before the tenth, [get_dataproc_logs] returns the
    first ten entries (or all of them, if fewer), in the iterator's
    order, as the lines "Entry 1: ...", "Entry 2: ...". *)
Theorem dataproc_logs_are_first_ten env project_id resource_name query_str label _limit it :
  new_client env project_id = None ->
  list_entries env (dataproc_call_args env project_id resource_name query_str label _limit)
  = inr it ->
  failure it = None \/ (10 <= length (entries it))%nat ->
  get_dataproc_logs env project_id resource_name query_str label _limit
  = numbered_from 0 (take 10 (entries it)).
Proof.
  intros Hclient Hit Hfail. unfold get_dataproc_logs, try_except. rewrite Hclient.
  unfold mbind, result_bind, bind, mret, result_ret, ret. rewrite Hit.
  rewrite pull_spec by lia.
  destruct (10 - 0 <=? Z.of_nat (length (entries it))) eqn:E.
  - reflexivity.
  - apply Z.leb_gt in E. destruct Hfail as [-> | Hlen]; [| lia].
    cbn [snd app]. rewrite take_ge by lia. reflexivity.
Qed.

Lemma dataproc_logs_are_first_ten_witness :
  new_client sample_env "p" = None
  /\ get_dataproc_logs sample_env "p" "cloud_dataproc_cluster" "my-cluster" "cluster_name" 12
     = numbered_from 0 (take 10 stored_entries).
Proof.
  split; [reflexivity |].
  exact (dataproc_logs_are_first_ten sample_env "p" "cloud_dataproc_cluster" "my-cluster"
           "cluster_name" 12 {| entries := stored_entries; failure := None |}
           eq_refl eq_refl (or_introl eq_refl)).
Defined.

(** When the fetch fails before ten entries were collected, whatever was
    collected is dropped. *)
Lemma get_dataproc_logs_failed env project_id resource_name query_str label _limit :
  (exists e, new_client env project_id = Some e)
  \/ (new_client env project_id = None /\
      exists e, list_entries env (dataproc_call_args env project_id resource_name query_str
                                    label _limit) = inl e)
  \/ (new_client env project_id = None /\
      exists it e, list_entries env (dataproc_call_args env project_id resource_name query_str
                                       label _limit) = inr it
                   /\ failure it = Some e /\ (length (entries it) < 10)%nat) ->
  get_dataproc_logs env project_id resource_name query_str label _limit = [].
Proof.
  unfold get_dataproc_logs, try_except.
  intros [[e ->] | [[-> [e He]] | [-> (it & e & Hit & Hfail & Hlen)]]]; [done | |].
  - unfold mbind, result_bind, bind. by rewrite He.
  - unfold mbind, result_bind, bind. rewrite Hit, pull_spec by lia.
    replace (10 - 0 <=? Z.of_nat (length (entries it))) with false
      by (symmetry; apply Z.leb_gt; lia).
    by rewrite Hfail.
Qed.

(** X13. The Dataproc cluster-log tools do not report a failed fetch: when
    the client cannot be built, or [list_entries] raises, or the iterator
    fails before its tenth entry, the answer is the success report "No log
    entries found matching the criteria.", as for a cluster without
    logs, and the entries read before the failure are dropped. *)
Theorem cluster_logs_hide_failures env project_id name _limit :
  (exists e, new_client env project_id = Some e)
  \/ (new_client env project_id = None /\
      exists e, list_entries env (dataproc_call_args env project_id "cloud_dataproc_cluster"
                                    name "cluster_name" _limit) = inl e)
  \/ (new_client env project_id = None /\
      exists it e, list_entries env (dataproc_call_args env project_id
                                       "cloud_dataproc_cluster" name "cluster_name" _limit)
                   = inr it
                   /\ failure it = Some e /\ (length (entries it) < 10)%nat) ->
  get_dataproc_cluster_logs_with_name env project_id name _limit = Report no_entries.
Proof.
  intros H. unfold get_dataproc_cluster_logs_with_name, cluster_logs.
  by rewrite (get_dataproc_logs_failed env project_id _ name _ _limit H).
Qed.

Lemma cluster_logs_hide_failures_witness :
  (exists e, new_client offline_env "p" = Some e)
  /\ get_dataproc_cluster_logs_with_name offline_env "p" "my-cluster" 10 = Report no_entries.
Proof.
  assert (H : exists e, new_client offline_env "p" = Some e) by (eexists; reflexivity).
  split; [exact H |].
  exact (cluster_logs_hide_failures offline_env "p" "my-cluster" 10 (or_introl H)).
Defined.

(** X14. When Cloud Logging has entries for the batch id, the job-log tool
    reports them and does not turn to [gcloud]: the result is the same
    for every shell. *)
Theorem job_logs_from_logging env shell project_id region job_id _limit :
  get_dataproc_logs env project_id "cloud_dataproc_batch" job_id "batch_id" _limit <> [] ->
  get_dataproc_job_logs_with_id env shell project_id region job_id _limit
  = Report ("Fetched log entries:" ++ newline
            ++ String.concat newline
                 (get_dataproc_logs env project_id "cloud_dataproc_batch" job_id
                    "batch_id" _limit))%string.
Proof.
  intros Hlogs. unfold get_dataproc_job_logs_with_id.
  destruct (get_dataproc_logs env project_id "cloud_dataproc_batch" job_id "batch_id" _limit)
    as [|l ls]; [done | reflexivity].
Qed.

Lemma job_logs_from_logging_witness :
  get_dataproc_logs sample_env "p" "cloud_dataproc_batch" "b1" "batch_id" 2 <> []
  /\ get_dataproc_job_logs_with_id sample_env (constant_shell 1 "" "") "p" "r" "b1" 2
     = Report ("Fetched log entries:" ++ newline
               ++ String.concat newline ["Entry 1: e1"; "Entry 2: e2"])%string.
Proof.
  assert (H : get_dataproc_logs sample_env "p" "cloud_dataproc_batch" "b1" "batch_id" 2 <> [])
    by discriminate.
  split; [exact H |].
  exact (job_logs_from_logging sample_env (constant_shell 1 "" "") "p" "r" "b1" 2 H).
Defined.

(** X15. When Cloud Logging gives nothing for the batch id, the job-log
    tool runs [gcloud dataproc jobs wait]: a non-zero exit status gives
    the "No log entries found" report, a zero status a report of the
    command's standard error followed by its standard output, and a
    command that cannot be started gives the error "Failed to get logs:
    'list' object has no attribute 'returncode'". *)
Theorem job_logs_from_gcloud env shell project_id region job_id _limit :
  get_dataproc_logs env project_id "cloud_dataproc_batch" job_id "batch_id" _limit = [] ->
  let command :=
    ("gcloud dataproc jobs wait " ++ job_id ++ " --project " ++ project_id
     ++ " --region " ++ region)%string in
  get_dataproc_job_logs_with_id env shell project_id region job_id _limit
  = match shell command with
    | inl _ => Error "Failed to get logs: 'list' object has no attribute 'returncode'"
    | inr p =>
        if Submit.returncode p =? 0
        then Report ("Fetched log entries:" ++ newline ++ Submit.stderr p ++ newline
                     ++ Submit.stdout p)%string
        else Report no_entries
    end.
Proof.
  intros Hlogs command. unfold get_dataproc_job_logs_with_id. rewrite Hlogs.
  cbn [length Nat.eqb]. unfold get_dataproc_normal_job_logs_with_id, try_except.
  unfold mbind, result_bind, bind, mret, result_ret, ret, raise.
  assert (Hcmd : String.concat " " ["gcloud"; "dataproc"; "jobs"; "wait"; job_id;
                                    "--project"; project_id; "--region"; region]
                 = command).
  { subst command. reflexivity. }
  rewrite Hcmd. destruct (shell command) as [e | p]; [reflexivity |].
  by destruct (Submit.returncode p =? 0).
Qed.

Lemma job_logs_from_gcloud_witness :
  get_dataproc_logs offline_env "p" "cloud_dataproc_batch" "j1" "batch_id" 10 = []
  /\ get_dataproc_job_logs_with_id offline_env (constant_shell 1 "" "not found") "p" "r"
       "j1" 10
     = Report no_entries.
Proof.
  assert (H : get_dataproc_logs offline_env "p" "cloud_dataproc_batch" "j1" "batch_id" 10 = [])
    by reflexivity.
  split; [exact H |].
  exact (job_logs_from_gcloud offline_env (constant_shell 1 "" "not found") "p" "r" "j1" 10 H).
Defined.

Lemma pull_all_spec it fail log_count collected :
  pull_all it fail log_count collected
  = match fail with
    | Some e => inl e
    | None => inr (log_count + Z.of_nat (length it), collected ++ numbered_from log_count it)
    end.
Proof.
  revert log_count collected.
  induction it as [|entry rest IH]; intros log_count collected.
  - cbn [pull_all length numbered_from]. destruct fail; [done |].
    unfold mret, result_ret, ret. by rewrite Z.add_0_r, app_nil_r.
  - cbn [pull_all]. rewrite IH. destruct fail; [done |].
    cbn [length numbered_from]. rewrite <- app_assoc. cbn [app]. do 2 f_equal. lia.
Qed.

(** X16. The Dataflow job-log tool has no bound of its own: when the
    iterator ends normally the report lists every entry it yields, numbered
    from 1 (more than ten if there are), and an empty iterator gives a
    report with the heading alone; when the iterator fails, the error is
    reported and no entry is. *)
Theorem dataflow_logs_list_every_entry env project_id job_id _limit it :
  new_client env project_id = None ->
  list_entries env {| resource_names := ["projects/" ++ project_id]%string;
                      order_by := None;
                      page_size := None;
                      max_results := _limit;
                      filter_ := dataflow_filter env job_id |} = inr it ->
  get_dataflow_job_logs_with_id env project_id job_id _limit
  = match failure it with
    | None =>
        Report ("Fetched log entries of Job ID: " ++ job_id ++ ":" ++ newline
                ++ String.concat newline (numbered_from 0 (entries it)))%string
    | Some e => Error ("Failed to get job with given id and error: " ++ str_exn e)%string
    end.
Proof.
  intros Hclient Hit. unfold get_dataflow_job_logs_with_id, try_except. rewrite Hclient.
  unfold mbind, result_bind, bind. rewrite Hit, pull_all_spec.
  by destruct (failure it).
Qed.

Lemma dataflow_logs_list_every_entry_witness :
  new_client sample_env "p" = None
  /\ get_dataflow_job_logs_with_id sample_env "p" "2025-07-11_02_51_43-1265" 12
     = Report ("Fetched log entries of Job ID: 2025-07-11_02_51_43-1265:" ++ newline
               ++ String.concat newline (numbered_from 0 stored_entries))%string.
Proof.
  split; [reflexivity |].
  exact (dataflow_logs_list_every_entry sample_env "p" "2025-07-11_02_51_43-1265" 12
           {| entries := stored_entries; failure := None |} eq_refl eq_refl).
Defined.

(** X17. [get_latest_resource_based_logs] builds its client outside the
    [try]: a failure there leaves the function as an exception.  Once the
    client exists every outcome is a dict: an error dict when
    [list_entries] raises or the iterator fails before its tenth entry,
    "No log entries found ..." for an empty result, and otherwise the
    first ten entries (all of them if fewer) numbered from 1; with ten
    entries or more a failure waiting behind them is never met. *)
Theorem resource_based_logs_outcomes env project_id severity resource _limit :
  match new_client env project_id with
  | Some e => get_latest_resource_based_logs env project_id severity resource _limit = inl e
  | None =>
      match list_entries env
              (resource_based_call_args env project_id severity resource _limit) with
      | inl e =>
          get_latest_resource_based_logs env project_id severity resource _limit
          = inr (Error ("Failed to get latest resource based 10 logs: " ++ str_exn e)%string)
      | inr it =>
          let fetched :=
            Report ("Fetched recent log entries:" ++ newline
                    ++ String.concat newline
                         (numbered_from 0 (take 10 (entries it))))%string in
          get_latest_resource_based_logs env project_id severity resource _limit
          = inr (if (10 <=? length (entries it))%nat then fetched
                 else match failure it with
                      | Some e =>
                          Error ("Failed to get latest resource based 10 logs: "
                                 ++ str_exn e)%string
                      | None =>
                          if decide (entries it = []) then Report no_entries else fetched
                      end)
      end
  end.
Proof.
  unfold get_latest_resource_based_logs, resource_based_entries.
  destruct (new_client env project_id); [reflexivity |].
  unfold mbind, result_bind, bind, mret, result_ret, ret, try_except.
  destruct (list_entries env _) as [e | it]; [reflexivity |].
  cbv zeta. rewrite pull_spec by lia.
  destruct (10 <=? length (entries it))%nat eqn:Hten.
  - apply Nat.leb_le in Hten.
    replace (10 - 0 <=? Z.of_nat (length (entries it))) with true
      by (symmetry; apply Z.leb_le; lia).
    reflexivity.
  - apply Nat.leb_gt in Hten.
    replace (10 - 0 <=? Z.of_nat (length (entries it))) with false
      by (symmetry; apply Z.leb_gt; lia).
    destruct (failure it) as [e |]; [reflexivity |].
    destruct (entries it) as [|x l] eqn:El.
    + rewrite decide_True by done. reflexivity.
    + rewrite decide_False by done.
      rewrite take_ge by (cbn [length] in *; lia).
      replace (0 + Z.of_nat (length (x :: l)) =? 0) with false
        by (symmetry; apply Z.eqb_neq; cbn [length]; lia).
      reflexivity.
Qed.

End LogToolsFacts.

(** ** More on job names *)

Module SanitizerMore.
Import Sanitizer SanitizerFacts SanitizerSamples.
Local Close Scope string_scope.
Local Open Scope N_scope.

(** X18. On inputs whose lower-cased form has at most 59 characters the
    sanitiser is idempotent: a second pass, whatever random value it
    draws, returns the first pass's result. *)
Theorem sanitize_idempotent_on_short_names u uuid_hex uuid_hex' name :
  unicode_ok u ->
  uuid_ok uuid_hex ->
  (length (lower u name) <= 59)%nat ->
  _sanitize_job_name u uuid_hex' (_sanitize_job_name u uuid_hex name)
  = _sanitize_job_name u uuid_hex name.
Proof.
  intros Hu Hhex Hshort.
  apply (sanitize_idempotent_unless_cut u uuid_hex uuid_hex' name Hu Hhex).
  by apply (sanitized_name_facts u uuid_hex name Hu Hhex).
Qed.

Lemma sanitize_idempotent_on_short_names_witness :
  unicode_ok ascii_tables
  /\ uuid_ok sample_uuid
  /\ (length (lower ascii_tables (of_string "My Job!!"%string)) <= 59)%nat
  /\ _sanitize_job_name ascii_tables sample_uuid
       (_sanitize_job_name ascii_tables sample_uuid (of_string "My Job!!"%string))
     = _sanitize_job_name ascii_tables sample_uuid (of_string "My Job!!"%string).
Proof.
  assert (H : (length (lower ascii_tables (of_string "My Job!!"%string)) <= 59)%nat)
    by (cbn; lia).
  split; [exact ascii_tables_ok | split; [exact sample_uuid_ok | split; [exact H |]]].
  exact (sanitize_idempotent_on_short_names ascii_tables sample_uuid sample_uuid
           (of_string "My Job!!"%string) ascii_tables_ok sample_uuid_ok H).
Defined.

(** X19. A sanitised name never holds two hyphens in a row. *)
Theorem sanitized_name_has_no_double_hyphen u uuid_hex name :
  unicode_ok u ->
  uuid_ok uuid_hex ->
  ~ exists pre post,
      _sanitize_job_name u uuid_hex name = pre ++ [hyphen; hyphen] ++ post.
Proof.
  intros Hu Hhex (pre & post & Heq).
  pose proof (sanitized_no_double u uuid_hex name Hu Hhex) as Hnd.
  rewrite Heq in Hnd. apply no_double_app_r in Hnd.
  cbn [app] in Hnd. rewrite no_double_cons2 in Hnd. discriminate Hnd.
Qed.

Lemma sanitized_name_has_no_double_hyphen_witness :
  unicode_ok ascii_tables
  /\ uuid_ok sample_uuid
  /\ ~ exists pre post,
        _sanitize_job_name ascii_tables sample_uuid (of_string "a -- b"%string)
        = pre ++ [hyphen; hyphen] ++ post.
Proof.
  split; [exact ascii_tables_ok | split; [exact sample_uuid_ok |]].
  exact (sanitized_name_has_no_double_hyphen ascii_tables sample_uuid
           (of_string "a -- b"%string) ascii_tables_ok sample_uuid_ok).
Defined.

(** X20. A name that already has the sanitised shape (at most 63
    characters, all lower-case letters, digits or hyphens, no two hyphens
    in a row, a letter first and a letter or digit last) is returned
    unchanged. *)
Theorem well_formed_name_unchanged u uuid_hex c l :
  unicode_ok u ->
  in_class_all (c :: l) ->
  no_double (c :: l) = true ->
  is_letter c = true ->
  is_letter (List.last (c :: l) 0) || is_digit (List.last (c :: l) 0) = true ->
  (length (c :: l) <= 63)%nat ->
  _sanitize_job_name u uuid_hex (c :: l) = c :: l.
Proof. exact (sanitize_fixed u uuid_hex c l). Qed.

Lemma well_formed_name_unchanged_witness :
  unicode_ok ascii_tables
  /\ in_class_all my_job
  /\ no_double my_job = true
  /\ _sanitize_job_name ascii_tables sample_uuid my_job = my_job.
Proof.
  assert (H1 : in_class_all my_job) by (repeat constructor).
  assert (H2 : no_double my_job = true) by reflexivity.
  split; [exact ascii_tables_ok | split; [exact H1 | split; [exact H2 |]]].
  exact (well_formed_name_unchanged ascii_tables sample_uuid 109 (of_string "y-job"%string)
           ascii_tables_ok H1 H2 eq_refl eq_refl ltac:(cbn; lia)).
Defined.

Abbreviation no_alnum := (Forall (fun c => is_letter c || is_digit c = false)).

Lemma lstrip_all_hyphens s : Forall (fun c => is_hyphen c = true) s -> lstrip s = [].
Proof. induction 1 as [|c s Hc _ IH]; [done |]. cbn [lstrip]. by rewrite Hc. Qed.

Lemma replace_outside_no_alnum s :
  no_alnum s -> Forall (fun c => is_hyphen c = true) (replace_outside s).
Proof.
  induction 1 as [|c s Hc _ IH]; [constructor |].
  unfold replace_outside in *. cbn [map]. constructor; [| exact IH].
  unfold in_class. rewrite Hc. cbn [orb]. by destruct (is_hyphen c) eqn:E.
Qed.

Lemma cleaned_no_alnum u name : no_alnum (lower u name) -> cleaned u name = [].
Proof.
  intros H. unfold cleaned, strip.
  rewrite (lstrip_all_hyphens (collapse (replace_outside (lower u name)))); [done |].
  by apply collapse_Forall, replace_outside_no_alnum.
Qed.

Lemma collapse_keeps x s : is_hyphen x = false -> x ∈ s -> x ∈ collapse s.
Proof.
  intros Hx. induction s as [|c rest IH]; [done |].
  intros Hin. cbn [collapse]. destruct rest as [|d rest']; [done |].
  apply elem_of_cons in Hin as [-> | Hin].
  - rewrite Hx. cbn [andb]. apply list_elem_of_here.
  - destruct (is_hyphen c && is_hyphen d); [by apply IH |].
    apply list_elem_of_further. by apply IH.
Qed.

Lemma lstrip_keeps x s : is_hyphen x = false -> x ∈ s -> x ∈ lstrip s.
Proof.
  intros Hx Hin. destruct (lstrip_spec s) as (h & Hs & Hh).
  rewrite Hs in Hin. apply elem_of_app in Hin as [Hin | Hin]; [| done].
  rewrite Forall_forall in Hh. specialize (Hh x Hin). congruence.
Qed.

Lemma elem_of_rev (x : N) s : x ∈ rev s <-> x ∈ s.
Proof. by rewrite !list_elem_of_In, <- in_rev. Qed.

Lemma cleaned_keeps_alnum u name :
  ~ no_alnum (lower u name) -> cleaned u name <> [].
Proof.
  intros Hsome Hnil. apply Hsome. apply Forall_forall. intros c Hc.
  destruct (is_letter c || is_digit c) eqn:Halnum; [| done]. exfalso.
  assert (Hclass : in_class c = true) by (by apply alnum_in_class).
  assert (Hnh : is_hyphen c = false) by (by apply is_letter_not_hyphen).
  assert (Hin : c ∈ cleaned u name).
  { unfold cleaned, strip. apply elem_of_rev, lstrip_keeps; [done |].
    apply elem_of_rev, lstrip_keeps; [done |]. apply collapse_keeps; [done |].
    unfold replace_outside. apply list_elem_of_In, in_map_iff.
    exists c. rewrite Hclass. split; [done | by apply list_elem_of_In]. }
  rewrite Hnil in Hin. by apply elem_of_nil in Hin.
Qed.

(** X21. The random suffix is used exactly for names without a lower-case
    letter or digit after lower-casing (the empty name, names made of
    symbols): those become [job-] followed by the first eight characters
    of the random value; every other name is sanitised without looking at
    the random value. *)
Theorem fallback_name_iff_no_alnum u uuid_hex name :
  (no_alnum (lower u name) ->
   _sanitize_job_name u uuid_hex name = job_prefix ++ take 8 uuid_hex)
  /\ (~ no_alnum (lower u name) ->
      forall uuid_hex',
        _sanitize_job_name u uuid_hex' name = _sanitize_job_name u uuid_hex name).
Proof.
  split.
  - intros H. apply sanitize_empty. by apply cleaned_no_alnum.
  - intros H uuid_hex'. apply cleaned_keeps_alnum in H.
    unfold _sanitize_job_name. fold (cleaned u name).
    by destruct (cleaned u name).
Qed.

(** X22. A name of the sanitised shape except that it starts with a
    digit gets the prefix [job-], and is then cut at 63 characters. *)
Theorem digit_first_name_gets_prefix u uuid_hex c l :
  unicode_ok u ->
  in_class_all (c :: l) ->
  no_double (c :: l) = true ->
  is_digit c = true ->
  is_letter (List.last (c :: l) 0) || is_digit (List.last (c :: l) 0) = true ->
  _sanitize_job_name u uuid_hex (c :: l) = take 63 (job_prefix ++ c :: l).
Proof.
  intros Hu Hall Hnd Hc Hlast.
  assert (Hclean : cleaned u (c :: l) = c :: l).
  { unfold cleaned. rewrite (lower_in_class u Hu _ Hall), (replace_outside_fixed _ Hall).
    rewrite (collapse_fixed _ Hnd). apply strip_fixed.
    - cbn [hd]. apply is_letter_not_hyphen. by rewrite Hc, orb_true_r.
    - by apply is_letter_not_hyphen. }
  rewrite (sanitize_nonempty u uuid_hex (c :: l) c l Hu Hclean).
  assert (Hnl : is_letter c = false).
  { revert Hc. unfold is_letter, is_digit.
    destruct ((97 <=? c) && (c <=? 122)) eqn:E; [| done].
    rewrite !andb_true_iff, !N.leb_le in *. lia. }
  by rewrite Hnl.
Qed.

Lemma digit_first_name_gets_prefix_witness :
  unicode_ok ascii_tables
  /\ in_class_all digits_first
  /\ _sanitize_job_name ascii_tables sample_uuid digits_first = job_prefix ++ digits_first.
Proof.
  assert (H1 : in_class_all digits_first) by (repeat constructor).
  split; [exact ascii_tables_ok | split; [exact H1 |]].
  exact (digit_first_name_gets_prefix ascii_tables sample_uuid 49
           (of_string "23-start"%string) ascii_tables_ok H1 eq_refl eq_refl eq_refl).
Defined.

(** X23. The test on the last character never removes anything, and the
    test on the first one is a test for a lower-case ASCII letter: the
    result is the cleaned text, prefixed with [job-] unless it starts with
    such a letter, cut at 63 characters. *)
Theorem last_character_check_never_fires u uuid_hex name :
  unicode_ok u ->
  _sanitize_job_name u uuid_hex name
  = match cleaned u name with
    | [] => job_prefix ++ take 8 uuid_hex
    | first :: rest =>
        take 63 (if is_letter first then first :: rest else job_prefix ++ first :: rest)
    end.
Proof.
  intros Hu. destruct (cleaned u name) as [|first rest] eqn:Hclean.
  - by apply sanitize_empty.
  - by apply sanitize_nonempty.
Qed.

Lemma last_character_check_never_fires_witness :
  unicode_ok ascii_tables
  /\ _sanitize_job_name ascii_tables sample_uuid only_symbols
     = job_prefix ++ take 8 sample_uuid.
Proof.
  split; [exact ascii_tables_ok |].
  exact (last_character_check_never_fires ascii_tables sample_uuid only_symbols
           ascii_tables_ok).
Defined.

End SanitizerMore.

(** ** Launching a pipeline *)

Module PipelineFacts.
Import Sanitizer Pipeline.
Local Close Scope string_scope.

Lemma dict_lookup_set_eq k v d : dict_lookup k (dict_set k v d) = Some v.
Proof.
  induction d as [|[k' v'] d IH]; cbn.
  - by rewrite bool_decide_eq_true_2.
  - case_bool_decide as E; cbn.
    + by rewrite bool_decide_eq_true_2.
    + by rewrite bool_decide_eq_false_2.
Qed.

Lemma dict_lookup_set_ne k k' v d : k <> k' -> dict_lookup k (dict_set k' v d) = dict_lookup k d.
Proof.
  intros Hne. induction d as [|[k0 v0] d IH]; cbn.
  - by rewrite bool_decide_eq_false_2.
  - case_bool_decide as E; cbn.
    + subst k0. by rewrite !bool_decide_eq_false_2.
    + case_bool_decide; [done | exact IH].
Qed.

Lemma dict_lookup_absent k d : k ∉ map fst d -> dict_lookup k d = None.
Proof.
  induction d as [|[k' v'] d IH]; [done |]. cbn. intros Hnot.
  apply not_elem_of_cons in Hnot as [Hne Hnot].
  rewrite bool_decide_eq_false_2 by done. by apply IH.
Qed.

(** In [{**base, **extra}] an item of [extra] wins over one of [base]. *)
Lemma dict_lookup_update k base extra :
  NoDup (map fst extra) ->
  dict_lookup k (dict_update base extra)
  = match dict_lookup k extra with
    | Some v => Some v
    | None => dict_lookup k base
    end.
Proof.
  unfold dict_update. revert base.
  induction extra as [|[k1 v1] extra IH]; intros base Hnd; [done |].
  cbn [map fst] in Hnd. apply NoDup_cons in Hnd as [Hnot Hnd].
  cbn [fold_left fst snd dict_lookup]. rewrite IH by done.
  case_bool_decide as E.
  - subst k1. by rewrite dict_lookup_absent, dict_lookup_set_eq.
  - by rewrite dict_lookup_set_ne.
Qed.

Lemma keys_dict_set k v d :
  map fst (dict_set k v d) = if bool_decide (k ∈ map fst d) then map fst d else map fst d ++ [k].
Proof.
  induction d as [|[k' v'] d IH]; [done |]. cbn [dict_set map fst].
  destruct (decide (k = k')) as [<- | E].
  - rewrite bool_decide_eq_true_2 by done. cbn [map fst].
    by rewrite bool_decide_eq_true_2 by apply list_elem_of_here.
  - rewrite (bool_decide_eq_false_2 (k = k')) by done. cbn [map fst]. rewrite IH.
    destruct (decide (k ∈ map fst d)) as [Hin | Hnot].
    + rewrite bool_decide_eq_true_2 by done.
      by rewrite bool_decide_eq_true_2 by (by apply list_elem_of_further).
    + rewrite bool_decide_eq_false_2 by done.
      rewrite bool_decide_eq_false_2; [done |].
      intros Hin. apply elem_of_cons in Hin as [? | ?]; congruence.
Qed.

Lemma NoDup_dict_set k v d : NoDup (map fst d) -> NoDup (map fst (dict_set k v d)).
Proof.
  intros Hnd. rewrite keys_dict_set. case_bool_decide as E; [done |].
  apply NoDup_app. split; [done |]. split; [| apply NoDup_singleton].
  intros x Hx Hx'. apply list_elem_of_singleton in Hx'. by subst.
Qed.

Lemma NoDup_dict_update base extra :
  NoDup (map fst base) -> NoDup (map fst (dict_update base extra)).
Proof.
  unfold dict_update. revert base.
  induction extra as [|[k v] extra IH]; intros base Hnd; [done |].
  cbn [fold_left]. apply IH. by apply NoDup_dict_set.
Qed.

Lemma dict_lookup_elem_of k v d : dict_lookup k d = Some v -> (k, v) ∈ d.
Proof.
  induction d as [|[k' v'] d IH]; [done |]. cbn.
  case_bool_decide as E.
  - intros [= ->]. subst. apply list_elem_of_here.
  - intros H. apply list_elem_of_further. by apply IH.
Qed.

(** Every item of the arguments is on the command line as [--key value]. *)
Lemma item_on_command_line env (args : dict) k v :
  (k, v) ∈ args ->
  exists pre post, command_line env args = pre ++ [of_string "--" ++ k; v] ++ post.
Proof.
  intros Hin. apply list_elem_of_split in Hin as (l1 & l2 & ->).
  unfold command_line. set (temp_filename := path_join _ _).
  set (flag := fun kv : text * text => [of_string "--" ++ fst kv; snd kv]).
  exists ([executable env; temp_filename] ++ flat_map flag l1), (flat_map flag l2).
  rewrite flat_map_app. change (flat_map flag ((k, v) :: l2))
    with ([of_string "--" ++ k; v] ++ flat_map flag l2).
  by rewrite <- app_assoc.
Qed.

Lemma startswith_spec p s : startswith p s = true <-> exists rest, s = p ++ rest.
Proof.
  revert s. induction p as [|a p IH]; intros s; cbn.
  - split; [intros _; by exists s | done].
  - destruct s as [|b s].
    + split; [done | intros [rest Hrest]; discriminate].
    + rewrite andb_true_iff, N.eqb_eq, IH. split.
      * intros [-> [rest ->]]. by exists rest.
      * intros [rest [= -> ->]]. split; [done | by exists rest].
Qed.

(** X24. [create_pipeline_from_scratch] refuses, in this order and each
    time with its own message: a pipeline type other than "batch" and
    "streaming"; an empty project, region or bucket path; a bucket path
    that does not start with [gs://].  A command line is therefore built
    only if the type is one of the two, the project and the region are
    not empty and the bucket path starts with [gs://]. *)
Theorem launch_only_if_arguments_valid env project_id region gcs_bucket_path job_name
    pipeline_args pipeline_type :
  let r := create_pipeline_from_scratch env project_id region gcs_bucket_path job_name
             pipeline_args pipeline_type in
  let type_ok := pipeline_type = of_string "batch" \/ pipeline_type = of_string "streaming" in
  let has_scheme := exists rest, gcs_bucket_path = of_string "gs://" ++ rest in
  (~ type_ok ->
     r = Refused (of_string "Invalid pipeline type. Please choose 'batch' or 'streaming'."))
  /\ (type_ok -> project_id = [] \/ region = [] \/ gcs_bucket_path = [] ->
      r = Refused (of_string "project_id, region, and gcs_bucket_path are required."))
  /\ (type_ok -> project_id <> [] -> region <> [] -> gcs_bucket_path <> [] ->
      ~ has_scheme ->
      r = Refused (of_string "gcs_bucket_path must start with 'gs://'."))
  /\ (forall command, r = Launch command ->
      type_ok /\ project_id <> [] /\ region <> [] /\ has_scheme).
Proof.
  cbv zeta. rewrite <- startswith_spec.
  unfold create_pipeline_from_scratch, generate_and_run_beam_pipeline.
  case_bool_decide as Htype; cbn [negb];
    rewrite !elem_of_cons, elem_of_nil in Htype.
  - cbn [forallb]. destruct project_id as [|p0 p]; cbn [andb negb].
    { repeat split; solve [done | tauto]. }
    destruct region as [|r0 r]; cbn [andb negb].
    { repeat split; solve [done | tauto]. }
    destruct gcs_bucket_path as [|g0 g]; cbn [andb negb].
    { repeat split; solve [done | tauto]. }
    destruct (startswith (of_string "gs://") (g0 :: g)) eqn:Hgs; cbn [negb];
      repeat split;
      solve [done | tauto | intros _ [? | [? | ?]]; done | by apply startswith_spec].
  - repeat split; solve [done | tauto].
Qed.

(** X25. The caller's pipeline arguments win over the defaults: for every
    key, the value on the command line is the caller's when
    [pipeline_args] has the key and the default otherwise, each key
    appearing once.  A [job_name] among the arguments thus replaces the
    sanitised job name, unsanitised. *)
Theorem pipeline_args_override_defaults env project_id region gcs_bucket_path job_name
    (pipeline_args : dict) k :
  NoDup (map fst pipeline_args) ->
  let args := full_args env project_id region gcs_bucket_path job_name pipeline_args in
  dict_lookup k args
  = match dict_lookup k pipeline_args with
    | Some v => Some v
    | None => dict_lookup k (full_args env project_id region gcs_bucket_path job_name [])
    end
  /\ NoDup (map fst args)
  /\ forall v, dict_lookup k args = Some v ->
       exists pre post, command_line env args = pre ++ [of_string "--" ++ k; v] ++ post.
Proof.
  intros Hnd args. split; [| split].
  - subst args. unfold full_args. by rewrite dict_lookup_update.
  - subst args. unfold full_args. apply NoDup_dict_update.
    cbn [map fst]. apply (bool_decide_unpack _). by vm_compute.
  - intros v Hv. by apply item_on_command_line, dict_lookup_elem_of.
Qed.

Lemma pipeline_args_override_defaults_witness :
  let pipeline_args := [(of_string "job_name", of_string "Raw Name")] in
  NoDup (map fst pipeline_args)
  /\ dict_lookup (of_string "job_name")
       (full_args sample_env (of_string "proj") (of_string "us-central1")
          (of_string "gs://bkt") (of_string "My Job") pipeline_args)
     = Some (of_string "Raw Name").
Proof.
  intros pipeline_args.
  assert (H : NoDup (map fst pipeline_args)) by (apply (bool_decide_unpack _); by vm_compute).
  split; [exact H |].
  exact (proj1 (pipeline_args_override_defaults sample_env (of_string "proj")
                  (of_string "us-central1") (of_string "gs://bkt") (of_string "My Job")
                  pipeline_args (of_string "job_name") H)).
Defined.

(** X26. For the pipeline type "streaming" the command line always
    carries [--streaming true], also when the caller's arguments give
    another value for [streaming]. *)
Theorem streaming_flag_forced env project_id region gcs_bucket_path job_name
    (pipeline_args : dict) command :
  NoDup (map fst pipeline_args) ->
  create_pipeline_from_scratch env project_id region gcs_bucket_path job_name
    pipeline_args (of_string "streaming") = Launch command ->
  exists pre post,
    command = pre ++ [of_string "--streaming"; of_string "true"] ++ post.
Proof.
  intros Hnd. unfold create_pipeline_from_scratch.
  rewrite bool_decide_eq_true_2 by (apply list_elem_of_further, list_elem_of_here).
  rewrite (bool_decide_eq_true_2 (of_string "streaming" = of_string "streaming")) by done.
  cbn [negb]. unfold generate_and_run_beam_pipeline.
  destruct (negb (forallb _ _)); [discriminate |].
  destruct (negb (startswith _ _)); [discriminate |].
  intros [= <-].
  set (args' := dict_set (of_string "streaming") (of_string "true") pipeline_args).
  assert (Hnd' : NoDup (map fst args')) by (by apply NoDup_dict_set).
  apply (item_on_command_line env _ (of_string "streaming") (of_string "true")).
  apply dict_lookup_elem_of. unfold full_args.
  rewrite dict_lookup_update by done. subst args'. by rewrite dict_lookup_set_eq.
Qed.

Lemma streaming_flag_forced_witness :
  let pipeline_args := [(of_string "streaming", of_string "false")] in
  NoDup (map fst pipeline_args)
  /\ exists command pre post,
       create_pipeline_from_scratch sample_env (of_string "proj") (of_string "us-central1")
         (of_string "gs://bkt") (of_string "My Job") pipeline_args (of_string "streaming")
       = Launch command
       /\ command = pre ++ [of_string "--streaming"; of_string "true"] ++ post.
Proof.
  intros pipeline_args.
  assert (H : NoDup (map fst pipeline_args)) by (apply (bool_decide_unpack _); by vm_compute).
  split; [exact H |].
  eexists. 
  destruct (streaming_flag_forced sample_env (of_string "proj") (of_string "us-central1")
              (of_string "gs://bkt") (of_string "My Job") pipeline_args _ H eq_refl)
    as (pre & post & Hc).
  by exists pre, post.
Defined.

End PipelineFacts.
